(** * UXTools: grab-pointer bookkeeping and pressable-button animation

    A shallow embedding of

    - [GrabbableComponent.cpp]: [UGrabPointerDataFunctionLibrary] and
      [UGrabbableComponent];
    - [UxtPressableButtonActor.cpp]: the pulse and focus animation of
      [AUxtPressableButtonActor] and its size setters.

    The engine is a host the code calls into.  Values the code reads from
    the host are fields of a [Host] record that every operation receives;
    calls the code makes on host objects are appended, in program order, to
    the [Calls] log of the object's state.  The C++ type [float] is IEEE-754
    binary32, taken from the Standard Library's executable specification. *)

From Stdlib Require Import ZArith String List Bool Lia.
From Stdlib Require Import Floats.SpecFloat.
Import ListNotations.

(** ** The C++ [float]: IEEE-754 binary32 *)

Module F32.

Definition prec : Z := 24.
Definition emax : Z := 128.

Definition float := spec_float.

(** Conversion of an [int] to [float] (round to nearest, ties to even). *)
Definition of_int (n : Z) : float := binary_normalize prec emax n 0 false.

Definition add : float -> float -> float := SFadd prec emax.
Definition sub : float -> float -> float := SFsub prec emax.
Definition mul : float -> float -> float := SFmul prec emax.
Definition div : float -> float -> float := SFdiv prec emax.

(** [a < b], [a <= b], [a == b]; [a > b] is [ltb b a], [a >= b] is
    [leb b a] and [a != b] is [negb (eqb a b)].  Every comparison with a
    NaN is false, except [!=]. *)
Definition ltb : float -> float -> bool := SFltb.
Definition leb : float -> float -> bool := SFleb.
Definition eqb : float -> float -> bool := SFeqb.
Definition gtb (a b : float) : bool := ltb b a.
Definition geb (a b : float) : bool := leb b a.
Definition neb (a b : float) : bool := negb (eqb a b).

(** The literals the sources use. *)
Definition zero : float := Eval vm_compute in of_int 0.
Definition one : float := Eval vm_compute in of_int 1.
Definition minus_one : float := Eval vm_compute in of_int (-1).
Definition ten : float := Eval vm_compute in of_int 10.
Definition half : float := Eval vm_compute in div one (of_int 2).
(** [-0.25f] *)
Definition minus_quarter : float := Eval vm_compute in div minus_one (of_int 4).

End F32.

Definition float : Type := F32.float.

(** ** Engine value types *)

Record FVector := mkFVector { vX : float; vY : float; vZ : float }.
Record FQuat := mkFQuat { qX : float; qY : float; qZ : float; qW : float }.
Record FRotator := mkFRotator { Pitch : float; Yaw : float; Roll : float }.
Record FTransform := mkFTransform
  { Rotation : FQuat; Translation : FVector; Scale3D : FVector }.

Module FVectorOps.

(** [FVector::ZeroVector] *)
Definition ZeroVector : FVector := mkFVector F32.zero F32.zero F32.zero.
(** [FVector::OneVector] *)
Definition OneVector : FVector := mkFVector F32.one F32.one F32.one.

(** [operator+], also the value [operator+=] stores. *)
Definition add (a b : FVector) : FVector :=
  mkFVector (F32.add (vX a) (vX b)) (F32.add (vY a) (vY b)) (F32.add (vZ a) (vZ b)).

(** [operator-] *)
Definition sub (a b : FVector) : FVector :=
  mkFVector (F32.sub (vX a) (vX b)) (F32.sub (vY a) (vY b)) (F32.sub (vZ a) (vZ b)).

(** [operator*(float Scale)] *)
Definition scale (a : FVector) (s : float) : FVector :=
  mkFVector (F32.mul (vX a) s) (F32.mul (vY a) s) (F32.mul (vZ a) s).

(** [operator/=(float V)]: multiplies every component by [1.f / V]. *)
Definition div (a : FVector) (v : float) : FVector :=
  let RV := F32.div F32.one v in
  mkFVector (F32.mul (vX a) RV) (F32.mul (vY a) RV) (F32.mul (vZ a) RV).

(** [operator!=]: some component differs. *)
Definition neb (a b : FVector) : bool :=
  F32.neb (vX a) (vX b) || F32.neb (vY a) (vY b) || F32.neb (vZ a) (vZ b).

(** [FMath::Lerp(A, B, Alpha)] is [A + Alpha * (B - A)]. *)
Definition Lerp (a b : FVector) (alpha : float) : FVector :=
  add a (scale (sub b a) alpha).

End FVectorOps.

(** [FRotator::ZeroRotator] *)
Definition ZeroRotator : FRotator := mkFRotator F32.zero F32.zero F32.zero.

(** [FQuat::Identity] and [FTransform::Identity]: no rotation, no
    translation, unit scale. *)
Definition QuatIdentity : FQuat := mkFQuat F32.zero F32.zero F32.zero F32.one.
Definition TransformIdentity : FTransform :=
  mkFTransform QuatIdentity FVectorOps.ZeroVector FVectorOps.OneVector.

(** [FTransform::GetLocation] and [FTransform::GetRotation] *)
Definition GetLocation (T : FTransform) : FVector := Translation T.
Definition GetRotation (T : FTransform) : FQuat := Rotation T.

Module FMath.

(** [FMath::Max] on [int32]. *)
Definition Max (a b : Z) : Z := if (a >=? b)%Z then a else b.

(** [FMath::Clamp(X, Min, Max)] is [X < Min ? Min : X < Max ? X : Max]. *)
Definition Clamp (x lo hi : float) : float :=
  if F32.ltb x lo then lo else if F32.ltb x hi then x else hi.

End FMath.

(** The engine's transform and rotation algebra.  It is opaque to the code
    under study, which only composes these operations. *)
Record Engine := mkEngine
  { (** [FTransform::TransformPosition] *)
    TransformPosition : FTransform -> FVector -> FVector;
    (** [FTransform::TransformRotation] *)
    TransformRotation : FTransform -> FQuat -> FQuat;
    (** [FTransform::operator*] *)
    TransformMul : FTransform -> FTransform -> FTransform;
    (** [FTransform::Inverse] *)
    TransformInverse : FTransform -> FTransform;
    (** [FQuat::Rotator] *)
    QuatRotator : FQuat -> FRotator;
    (** [FQuat::FQuat(const FRotator&)] *)
    MakeQuat : FRotator -> FQuat;
    (** [FRotator::GetInverse] *)
    RotatorGetInverse : FRotator -> FRotator;
    (** [FQuat::operator*] *)
    QuatMul : FQuat -> FQuat -> FQuat }.

(** ** [ensure]

    [ensure(c)] evaluates to [c] and reports a failed assertion when [c] is
    false.  A computation that may report carries the number of reports. *)

Definition Ensured (A : Type) : Type := (A * nat)%type.

Definition retE {A} (a : A) : Ensured A := (a, 0%nat).
Definition bindE {A B} (m : Ensured A) (k : A -> Ensured B) : Ensured B :=
  let (b, n) := k (fst m) in (b, (snd m + n)%nat).
Definition ensure (c : bool) : Ensured bool := (c, if c then 0%nat else 1%nat).

Notation "x <- m ;; k" := (bindE m (fun x => k))
  (at level 61, m at next level, right associativity).

(** ** GrabbableComponent.cpp *)

Module Grabbable.

(** A [UTouchPointer] object, by identity.  A [UTouchPointer*] is [None]
    when null; the engine nulls a reference whose object is gone. *)
Definition UTouchPointer : Type := nat.

Record FGrabPointerData := mkFGrabPointerData
  { Pointer : option UTouchPointer;
    LocalGrabPoint : FTransform;
    StartTime : float }.

(** What the component reads from the host during one call. *)
Record Host := mkHost
  { (** [Pointer->GetComponentLocation()] *)
    PointerLocation : UTouchPointer -> FVector;
    (** [Pointer->GetComponentRotation()] *)
    PointerRotation : UTouchPointer -> FRotator;
    (** [Pointer->GetComponentTransform()] *)
    PointerTransform : UTouchPointer -> FTransform;
    (** the component's own [GetComponentTransform()] *)
    ComponentTransform : FTransform;
    (** [GetWorld()->GetTimeSeconds()] *)
    TimeSeconds : float }.

(** The calls the component makes on other objects. *)
Inductive HostCall :=
| SuperGraspStarted (p : UTouchPointer)
| SuperGraspEnded (p : UTouchPointer)
| SetHoverLocked (p : UTouchPointer) (locked : bool)
| BroadcastOnBeginGrab (data : FGrabPointerData)
| BroadcastOnEndGrab (data : FGrabPointerData)
| SetTickFunctionEnable (enabled : bool).

Record UGrabbableComponent := mkUGrabbableComponent
  { GrabPointers : list FGrabPointerData;
    bTickOnlyWhileGrabbed : bool;
    Calls : list HostCall }.

Definition pointer_eqb (a b : option UTouchPointer) : bool :=
  match a, b with
  | Some x, Some y => Nat.eqb x y
  | None, None => true
  | _, _ => false
  end.

(** [TArray::Num] *)
Definition Num (c : UGrabbableComponent) : Z := Z.of_nat (length (GrabPointers c)).

Section WithEngine.

Variable E : Engine.

(** *** UGrabPointerDataFunctionLibrary *)

Definition GetGrabLocation (T : FTransform) (PointerData : FGrabPointerData) : FVector :=
  TransformPosition E T (GetLocation (LocalGrabPoint PointerData)).

Definition GetGrabRotation (T : FTransform) (PointerData : FGrabPointerData) : FRotator :=
  QuatRotator E (TransformRotation E T (GetRotation (LocalGrabPoint PointerData))).

Definition GetGrabTransform (T : FTransform) (PointerData : FGrabPointerData) : FTransform :=
  TransformMul E (LocalGrabPoint PointerData) T.

Definition is_valid (p : option UTouchPointer) : bool :=
  match p with Some _ => true | None => false end.

Definition GetTargetLocation (h : Host) (PointerData : FGrabPointerData) : Ensured FVector :=
  ok <- ensure (is_valid (Pointer PointerData)) ;;
  match ok, Pointer PointerData with
  | true, Some p => retE (PointerLocation h p)
  | _, _ => retE FVectorOps.ZeroVector
  end.

Definition GetTargetRotation (h : Host) (PointerData : FGrabPointerData) : Ensured FRotator :=
  ok <- ensure (is_valid (Pointer PointerData)) ;;
  match ok, Pointer PointerData with
  | true, Some p => retE (PointerRotation h p)
  | _, _ => retE ZeroRotator
  end.

Definition GetTargetTransform (h : Host) (PointerData : FGrabPointerData) : Ensured FTransform :=
  ok <- ensure (is_valid (Pointer PointerData)) ;;
  match ok, Pointer PointerData with
  | true, Some p => retE (PointerTransform h p)
  | _, _ => retE TransformIdentity
  end.

Definition GetLocationOffset (h : Host) (T : FTransform) (PointerData : FGrabPointerData)
  : Ensured FVector :=
  target <- GetTargetLocation h PointerData ;;
  retE (FVectorOps.sub target (GetGrabLocation T PointerData)).

Definition GetRotationOffset (h : Host) (T : FTransform) (PointerData : FGrabPointerData)
  : Ensured FRotator :=
  target <- GetTargetRotation h PointerData ;;
  retE (QuatRotator E
          (QuatMul E (MakeQuat E target)
             (MakeQuat E (RotatorGetInverse E (GetGrabRotation T PointerData))))).

(** *** UGrabbableComponent *)

(** The divisor of both centroids: [FMath::Max(GrabPointers.Num(), 1)]. *)
Definition CentroidDivisor (c : UGrabbableComponent) : Z := FMath.Max (Num c) 1.

Definition GetGrabPointCentroid (T : FTransform) (c : UGrabbableComponent) : FVector :=
  let centroid :=
    fold_left (fun centroid data => FVectorOps.add centroid (GetGrabLocation T data))
      (GrabPointers c) FVectorOps.ZeroVector in
  FVectorOps.div centroid (F32.of_int (CentroidDivisor c)).

Definition GetTargetCentroid (h : Host) (c : UGrabbableComponent) : Ensured FVector :=
  centroid <-
    fold_left
      (fun (acc : Ensured FVector) data =>
         centroid <- acc ;;
         ok <- ensure (is_valid (Pointer data)) ;;
         if ok
         then target <- GetTargetLocation h data ;; retE (FVectorOps.add centroid target)
         else retE centroid)
      (GrabPointers c) (retE FVectorOps.ZeroVector) ;;
  retE (FVectorOps.div centroid (F32.of_int (CentroidDivisor c))).

End WithEngine.

(** The loop of [FindGrabPointerInternal], from index [i] on: the record
    found (what [OutData] points to), [OutIndex] and the result. *)
Fixpoint FindGrabPointerFrom (Pointer' : option UTouchPointer) (l : list FGrabPointerData)
    (i : Z) : bool * option FGrabPointerData * Z :=
  match l with
  | [] => (false, None, (-1)%Z)
  | data :: rest =>
      if pointer_eqb (Pointer data) Pointer'
      then (true, Some data, i)
      else FindGrabPointerFrom Pointer' rest (i + 1)%Z
  end.

Definition FindGrabPointerInternal (c : UGrabbableComponent) (Pointer' : option UTouchPointer)
  : bool * option FGrabPointerData * Z :=
  FindGrabPointerFrom Pointer' (GrabPointers c) 0%Z.

(** The reference parameters [Success], [PointerData] and [Index]:
    [PointerData0] is what the caller's [PointerData] holds before the
    call; [Success] and [Index] are always assigned. *)
Definition FindGrabPointer (c : UGrabbableComponent) (Pointer' : option UTouchPointer)
    (PointerData0 : FGrabPointerData) : bool * FGrabPointerData * Z :=
  let '(Success, pData, Index) := FindGrabPointerInternal c Pointer' in
  match Success, pData with
  | true, Some data => (Success, data, Index)
  | _, _ => (Success, PointerData0, Index)
  end.

(** [Valid] is always assigned; [PointerData] only when a record exists. *)
Definition GetPrimaryGrabPointer (c : UGrabbableComponent) (PointerData0 : FGrabPointerData)
  : bool * FGrabPointerData :=
  if (Num c >=? 1)%Z
  then match nth_error (GrabPointers c) 0 with
       | Some data => (true, data)
       | None => (true, PointerData0)
       end
  else (false, PointerData0).

Definition GetSecondaryGrabPointer (c : UGrabbableComponent) (PointerData0 : FGrabPointerData)
  : bool * FGrabPointerData :=
  if (Num c >=? 2)%Z
  then match nth_error (GrabPointers c) 1 with
       | Some data => (true, data)
       | None => (true, PointerData0)
       end
  else (false, PointerData0).

Definition call (k : HostCall) (c : UGrabbableComponent) : UGrabbableComponent :=
  mkUGrabbableComponent (GrabPointers c) (bTickOnlyWhileGrabbed c) (Calls c ++ [k]).

Definition UpdateComponentTickEnabled (c : UGrabbableComponent) : UGrabbableComponent :=
  if bTickOnlyWhileGrabbed c
  then call (SetTickFunctionEnable (Num c >? 0)%Z) c
  else c.

Definition SetTickOnlyWhileGrabbed (bEnable : bool) (c : UGrabbableComponent)
  : UGrabbableComponent :=
  let c := mkUGrabbableComponent (GrabPointers c) bEnable (Calls c) in
  if bEnable then UpdateComponentTickEnabled c else call (SetTickFunctionEnable true) c.

(** [GraspStarted_Implementation].  [Pointer] is dereferenced without a
    test, so the argument is an object, not a nullable reference.
    [GraspRecord] is the local [data] it fills in. *)
Definition GraspRecord (E : Engine) (h : Host) (Pointer' : UTouchPointer) : FGrabPointerData :=
  mkFGrabPointerData (Some Pointer')
    (TransformMul E (PointerTransform h Pointer') (TransformInverse E (ComponentTransform h)))
    (TimeSeconds h).

Definition GraspStarted (E : Engine) (h : Host) (Pointer' : UTouchPointer)
    (c : UGrabbableComponent) : UGrabbableComponent :=
  let c := call (SuperGraspStarted Pointer') c in
  let data := GraspRecord E h Pointer' in
  let c := mkUGrabbableComponent (GrabPointers c ++ [data]) (bTickOnlyWhileGrabbed c) (Calls c) in
  let c := call (SetHoverLocked Pointer' true) c in
  let c := call (BroadcastOnBeginGrab data) c in
  UpdateComponentTickEnabled c.

Definition ResetLocalGrabPoint (E : Engine) (h : Host) (PointerData : FGrabPointerData)
  : option FGrabPointerData :=
  match Pointer PointerData with
  | Some p =>
      Some (mkFGrabPointerData (Pointer PointerData)
              (TransformMul E (PointerTransform h p) (TransformInverse E (ComponentTransform h)))
              (StartTime PointerData))
  | None => None
  end.

(** [TArray::RemoveAll]: the predicate runs once on every element, in
    order; the elements it rejects keep their order.  The predicate of
    [GraspEnded_Implementation] makes host calls, returned with its
    verdict.  The result is the remaining elements, the calls made and the
    number of elements removed. *)
Fixpoint RemoveAll {A} (pred : A -> bool * list HostCall) (l : list A)
  : list A * list HostCall * Z :=
  match l with
  | [] => ([], [], 0%Z)
  | x :: rest =>
      let (remove, made) := pred x in
      let '(kept, later, n) := RemoveAll pred rest in
      if remove then (kept, made ++ later, (n + 1)%Z) else (x :: kept, made ++ later, n)
  end.

Definition GraspEnded (Pointer' : UTouchPointer) (c : UGrabbableComponent)
  : UGrabbableComponent :=
  let '(kept, made, numRemoved) :=
    RemoveAll
      (fun data =>
         if pointer_eqb (Pointer data) (Some Pointer')
         then (true, [SetHoverLocked Pointer' false; BroadcastOnEndGrab data])
         else (false, []))
      (GrabPointers c) in
  let c := mkUGrabbableComponent kept (bTickOnlyWhileGrabbed c) (Calls c ++ made) in
  let c := UpdateComponentTickEnabled c in
  call (SuperGraspEnded Pointer') c.

(** A newly constructed component: no record yet. *)
Definition NewComponent (tickOnlyWhileGrabbed : bool) : UGrabbableComponent :=
  mkUGrabbableComponent [] tickOnlyWhileGrabbed [].

(** A sequence of grasp notifications, each start with the host as it is
    at the time of the call. *)
Inductive GraspCall :=
| CallGraspStarted (h : Host) (p : UTouchPointer)
| CallGraspEnded (p : UTouchPointer).

Definition step (E : Engine) (c : UGrabbableComponent) (k : GraspCall) : UGrabbableComponent :=
  match k with
  | CallGraspStarted h p => GraspStarted E h p c
  | CallGraspEnded p => GraspEnded p c
  end.

Definition run (E : Engine) (calls : list GraspCall) (c : UGrabbableComponent)
  : UGrabbableComponent :=
  fold_left (step E) calls c.

(** The pointers of the records, in list order. *)
Definition pointers (c : UGrabbableComponent) : list (option UTouchPointer) :=
  map Pointer (GrabPointers c).

End Grabbable.

(** ** UxtPressableButtonActor.cpp *)

Module Button.

(** Host objects, by identity; a reference is [None] when null. *)
Definition UMaterialInterface : Type := nat.
Definition UStaticMesh : Type := nat.
Definition UCurveFloat : Type := nat.
Definition FName : Type := string.

Inductive EControllerHand := Left | Right | AnyHand.

Inductive EUxtButtonState := Default | Focused | Contacted | Pressed | Disabled.

Definition hand_eqb (a b : EControllerHand) : bool :=
  match a, b with
  | Left, Left | Right, Right | AnyHand, AnyHand => true
  | _, _ => false
  end.

Definition state_eqb (a b : EUxtButtonState) : bool :=
  match a, b with
  | Default, Default | Focused, Focused | Contacted, Contacted
  | Pressed, Pressed | Disabled, Disabled => true
  | _, _ => false
  end.

(** What [BeginPulse] reads of a [UUxtPointerComponent]. *)
Record UUxtPointerComponent := mkPointer
  { Hand : EControllerHand;
    (** [GetCursorTransform()] *)
    CursorTransform : FTransform }.

(** [ButtonBrush.Visuals], the fields this file reads. *)
Record FUxtButtonVisualsBrush := mkVisuals
  { BackPlateMaterial : option UMaterialInterface;
    BackPlateMesh : option UStaticMesh;
    FrontPlateMaterial : option UMaterialInterface;
    FrontPlateMesh : option UStaticMesh;
    FrontPlatePulseLeftMaterial : option UMaterialInterface;
    FrontPlatePulseRightMaterial : option UMaterialInterface;
    PulseTime : float;
    PulseFadeTime : float;
    IconFocusSpeed : float;
    IconFocusCurve : option UCurveFloat }.

(** What the actor reads from its components during one call. *)
Record Host := mkHost
  { (** [FrontPlateMeshComponent->GetMaterial(0)] *)
    FrontPlateMaterial0 : option UMaterialInterface;
    (** the instance [CreateDynamicMaterialInstance] returns *)
    NewDynamicMaterialInstance : UMaterialInterface;
    (** [FrontPlateMeshComponent->GetForwardVector()] *)
    FrontPlateForwardVector : FVector;
    (** [GetActorForwardVector()] *)
    ActorForwardVector : FVector;
    (** [BackPlateMeshComponent->GetRelativeScale3D()] *)
    BackPlateRelativeScale3D : FVector;
    (** [ButtonComponent->GetState()] *)
    ButtonState : EUxtButtonState;
    (** [FrontPlatePivotComponent->GetName()] *)
    FrontPlatePivotName : string;
    (** [UCurveFloat::GetFloatValue] *)
    CurveFloatValue : UCurveFloat -> float -> float }.

(** The calls the actor makes on its components and materials. *)
Inductive HostCall :=
| SuperTick (DeltaTime : float)
| SetActorTickEnabled (enabled : bool)
| BackPlate_SetBackPlateMaterial (m : option UMaterialInterface)
| BackPlate_SetStaticMesh (mesh : option UStaticMesh)
| BackPlate_SetRelativeScale3D (v : FVector)
| BackPlate_SetVisibility (visible : bool)
| FrontPlateCenter_SetRelativeLocation (v : FVector)
| FrontPlate_SetMaterial (index : Z) (m : option UMaterialInterface)
| FrontPlate_SetStaticMesh (mesh : option UStaticMesh)
| FrontPlate_SetRelativeScale3D (v : FVector)
| FrontPlate_SetRelativeRotation (r : FRotator)
| FrontPlate_CreateDynamicMaterialInstance (index : Z)
    (parent : option UMaterialInterface) (name : FName)
| Material_SetVectorParameterValue (m : option UMaterialInterface) (name : FName) (v : FVector)
| Material_SetScalarParameterValue (m : option UMaterialInterface) (name : FName) (x : float)
| Button_SetVisuals (PathToComponent : string)
| Button_SetMaxPushDistance (d : float)
| Icon_SetRelativeLocation (v : FVector).

Record AUxtPressableButtonActor := mkActor
  { (** [ButtonBrush.Visuals] *)
    Visuals : FUxtButtonVisualsBrush;
    (** [IconBrush.TextBrush.RelativeLocation] *)
    IconRelativeLocation : FVector;
    MillimeterSize : FVector;
    bIsPlated : bool;
    PulseTimer : float;
    PulseFadeTimer : float;
    FocusTimer : float;
    MaterialIndex : Z;
    PrePulseMaterial : option UMaterialInterface;
    PulseMaterialInstance : option UMaterialInterface;
    Calls : list HostCall }.

Definition set_MillimeterSize (v : FVector) (a : AUxtPressableButtonActor) :=
  mkActor (Visuals a) (IconRelativeLocation a) v (bIsPlated a) (PulseTimer a)
    (PulseFadeTimer a) (FocusTimer a) (MaterialIndex a) (PrePulseMaterial a)
    (PulseMaterialInstance a) (Calls a).

Definition set_PulseTimer (x : float) (a : AUxtPressableButtonActor) :=
  mkActor (Visuals a) (IconRelativeLocation a) (MillimeterSize a) (bIsPlated a) x
    (PulseFadeTimer a) (FocusTimer a) (MaterialIndex a) (PrePulseMaterial a)
    (PulseMaterialInstance a) (Calls a).

Definition set_PulseFadeTimer (x : float) (a : AUxtPressableButtonActor) :=
  mkActor (Visuals a) (IconRelativeLocation a) (MillimeterSize a) (bIsPlated a)
    (PulseTimer a) x (FocusTimer a) (MaterialIndex a) (PrePulseMaterial a)
    (PulseMaterialInstance a) (Calls a).

Definition set_FocusTimer (x : float) (a : AUxtPressableButtonActor) :=
  mkActor (Visuals a) (IconRelativeLocation a) (MillimeterSize a) (bIsPlated a)
    (PulseTimer a) (PulseFadeTimer a) x (MaterialIndex a) (PrePulseMaterial a)
    (PulseMaterialInstance a) (Calls a).

Definition set_MaterialIndex (i : Z) (a : AUxtPressableButtonActor) :=
  mkActor (Visuals a) (IconRelativeLocation a) (MillimeterSize a) (bIsPlated a)
    (PulseTimer a) (PulseFadeTimer a) (FocusTimer a) i (PrePulseMaterial a)
    (PulseMaterialInstance a) (Calls a).

Definition set_PrePulseMaterial (m : option UMaterialInterface) (a : AUxtPressableButtonActor) :=
  mkActor (Visuals a) (IconRelativeLocation a) (MillimeterSize a) (bIsPlated a)
    (PulseTimer a) (PulseFadeTimer a) (FocusTimer a) (MaterialIndex a) m
    (PulseMaterialInstance a) (Calls a).

Definition set_PulseMaterialInstance (m : option UMaterialInterface)
    (a : AUxtPressableButtonActor) :=
  mkActor (Visuals a) (IconRelativeLocation a) (MillimeterSize a) (bIsPlated a)
    (PulseTimer a) (PulseFadeTimer a) (FocusTimer a) (MaterialIndex a)
    (PrePulseMaterial a) m (Calls a).

Definition call (k : HostCall) (a : AUxtPressableButtonActor) :=
  mkActor (Visuals a) (IconRelativeLocation a) (MillimeterSize a) (bIsPlated a)
    (PulseTimer a) (PulseFadeTimer a) (FocusTimer a) (MaterialIndex a)
    (PrePulseMaterial a) (PulseMaterialInstance a) (Calls a ++ [k]).

(** The material parameter names, one variant per hand. *)
Definition PulseInstanceNames : list FName := ["RightPulse"; "LeftPulse"]%string.
Definition PulseInstanceFadeNames : list FName := ["RightPulseFade"; "LeftPulseFade"]%string.
Definition PulsePositionNames : list FName := ["Blob_Position_2"; "Blob_Position"]%string.
Definition PulseValueNames : list FName := ["Blob_Pulse_2"; "Blob_Pulse"]%string.
Definition PulseFadeNames : list FName := ["Blob_Fade_2"; "Blob_Fade"]%string.

(** [Names[i]] on a two-element array; [MaterialIndex] is only ever
    assigned 0 or 1. *)
Definition at_index {A} (l : list A) (i : Z) (d : A) : A := nth (Z.to_nat i) l d.

(** The duration a rate is computed from: [(T <= 0) ? 1.f : T]. *)
Definition RateDuration (T : float) : float := if F32.leb T F32.zero then F32.one else T.

Section WithHeader.

(** Declared in [UxtPressableButtonActor.h], which is not among the
    sources: the two accessors are parameters of what follows. *)
Variable IsPulsing : AUxtPressableButtonActor -> bool.
Variable GetSize : AUxtPressableButtonActor -> FVector.

Definition ConstructVisuals (h : Host) (a : AUxtPressableButtonActor)
  : AUxtPressableButtonActor :=
  let a := match BackPlateMaterial (Visuals a) with
           | Some m => call (BackPlate_SetBackPlateMaterial (Some m)) a
           | None => a
           end in
  let a := match BackPlateMesh (Visuals a) with
           | Some m => call (BackPlate_SetStaticMesh (Some m)) a
           | None => a
           end in
  let Size := GetSize a in
  let a := call (BackPlate_SetRelativeScale3D
                   (mkFVector (vZ Size) (vY Size) (vZ (BackPlateRelativeScale3D h)))) a in
  let a := call (BackPlate_SetVisibility (bIsPlated a)) a in
  let a := call (FrontPlateCenter_SetRelativeLocation
                   (mkFVector (F32.mul (vX Size) F32.half) F32.zero F32.zero)) a in
  let a := match FrontPlateMaterial (Visuals a) with
           | Some m => call (FrontPlate_SetMaterial 0 (Some m)) a
           | None => a
           end in
  let a := match FrontPlateMesh (Visuals a) with
           | Some m => call (FrontPlate_SetStaticMesh (Some m)) a
           | None => a
           end in
  let a := call (FrontPlate_SetRelativeScale3D Size) a in
  let a := call (FrontPlate_SetRelativeRotation
                   (mkFRotator (F32.of_int 180) F32.zero F32.zero)) a in
  let a := call (Button_SetVisuals (FrontPlatePivotName h)) a in
  call (Button_SetMaxPushDistance (vX Size)) a.

Definition BeginPulse (h : Host) (Pointer : option UUxtPointerComponent)
    (a : AUxtPressableButtonActor) : AUxtPressableButtonActor * bool :=
  match IsPulsing a, Pointer with
  | true, _ => (a, false)
  | false, None => (a, false)
  | false, Some P =>
      let a := set_PulseTimer F32.zero a in
      let a := set_PulseFadeTimer F32.zero a in
      let a := set_PrePulseMaterial (FrontPlateMaterial0 h) a in
      let a := set_MaterialIndex (if hand_eqb (Hand P) Left then 1 else 0)%Z a in
      let PulseMaterials :=
        [FrontPlatePulseRightMaterial (Visuals a); FrontPlatePulseLeftMaterial (Visuals a)] in
      let a := call (FrontPlate_CreateDynamicMaterialInstance 0
                       (at_index PulseMaterials (MaterialIndex a) None)
                       (at_index PulseInstanceNames (MaterialIndex a) EmptyString)) a in
      let a := set_PulseMaterialInstance (Some (NewDynamicMaterialInstance h)) a in
      let PulseLocation :=
        FVectorOps.sub (GetLocation (CursorTransform P)) (FrontPlateForwardVector h) in
      let a := call (Material_SetVectorParameterValue (PulseMaterialInstance a)
                       (at_index PulsePositionNames (MaterialIndex a) EmptyString)
                       PulseLocation) a in
      let a := call (SetActorTickEnabled true) a in
      (a, true)
  end.

Definition SetMillimeterSize (h : Host) (Size : FVector) (a : AUxtPressableButtonActor)
  : AUxtPressableButtonActor :=
  if FVectorOps.neb (MillimeterSize a) Size
  then ConstructVisuals h (set_MillimeterSize Size a)
  else a.

Definition SetSize (h : Host) (Size : FVector) (a : AUxtPressableButtonActor)
  : AUxtPressableButtonActor :=
  let NewSize := FVectorOps.scale Size F32.ten in
  if FVectorOps.neb (MillimeterSize a) NewSize
  then ConstructVisuals h (set_MillimeterSize NewSize a)
  else a.

Definition AnimatePulse (h : Host) (DeltaTime : float) (a : AUxtPressableButtonActor)
  : AUxtPressableButtonActor * bool :=
  if F32.gtb (PulseTimer a) F32.one then
    if F32.gtb (PulseFadeTimer a) F32.one then
      let a := call (FrontPlate_SetMaterial 0 (PrePulseMaterial a)) a in
      let a := set_PulseMaterialInstance None a in
      let a := set_PulseTimer F32.minus_one a in
      let a := set_PulseFadeTimer F32.minus_one a in
      (a, true)
    else
      let a := call (Material_SetScalarParameterValue (PulseMaterialInstance a)
                       (at_index PulseFadeNames (MaterialIndex a) EmptyString)
                       (PulseFadeTimer a)) a in
      let a := set_PulseFadeTimer
                 (F32.add (PulseFadeTimer a)
                    (F32.mul (F32.div F32.one (RateDuration (PulseFadeTime (Visuals a))))
                       DeltaTime)) a in
      (a, false)
  else if F32.geb (PulseTimer a) F32.zero then
    let a := call (Material_SetScalarParameterValue (PulseMaterialInstance a)
                     (at_index PulseValueNames (MaterialIndex a) EmptyString)
                     (PulseTimer a)) a in
    let a := set_PulseTimer
               (F32.add (PulseTimer a)
                  (F32.mul (F32.div F32.one (RateDuration (PulseTime (Visuals a))))
                     DeltaTime)) a in
    let a :=
      if F32.gtb (PulseTimer a) F32.one then
        let a := set_PulseFadeTimer F32.zero a in
        let a := call (FrontPlate_CreateDynamicMaterialInstance 0 (PrePulseMaterial a)
                         (at_index PulseInstanceFadeNames (MaterialIndex a) EmptyString)) a in
        let a := set_PulseMaterialInstance (Some (NewDynamicMaterialInstance h)) a in
        call (Material_SetScalarParameterValue (PulseMaterialInstance a)
                (at_index PulseFadeNames (MaterialIndex a) EmptyString)
                (PulseFadeTimer a)) a
      else a in
    (a, false)
  else (a, true).

(** The locals of [AnimateFocus]: [FocusSpeed], and the value that is
    clamped, [FocusTimer + (DeltaTime * FocusSpeed)]. *)
Definition FocusSpeed (h : Host) (a : AUxtPressableButtonActor) : float :=
  let IsFocused := state_eqb (ButtonState h) Focused in
  F32.mul (IconFocusSpeed (Visuals a)) (if IsFocused then F32.one else F32.minus_one).

Definition FocusTarget (h : Host) (DeltaTime : float) (a : AUxtPressableButtonActor) : float :=
  F32.add (FocusTimer a) (F32.mul DeltaTime (FocusSpeed h a)).

Definition AnimateFocus (h : Host) (DeltaTime : float) (a : AUxtPressableButtonActor)
  : AUxtPressableButtonActor * bool :=
  let a := set_FocusTimer (FMath.Clamp (FocusTarget h DeltaTime a) F32.zero F32.one) a in
  let CurveTime :=
    match IconFocusCurve (Visuals a) with
    | Some curve => CurveFloatValue h curve (FocusTimer a)
    | None => FocusTimer a
    end in
  let a := call (Icon_SetRelativeLocation
                   (FVectorOps.Lerp (IconRelativeLocation a)
                      (FVectorOps.add (IconRelativeLocation a)
                         (FVectorOps.scale (ActorForwardVector h)
                            (F32.mul (vX (GetSize a)) F32.minus_quarter)))
                      CurveTime)) a in
  (a, F32.eqb (FocusTimer a) F32.zero).

Definition Tick (h : Host) (DeltaTime : float) (a : AUxtPressableButtonActor)
  : AUxtPressableButtonActor :=
  let a := call (SuperTick DeltaTime) a in
  let (a, PulseComplete) := AnimatePulse h DeltaTime a in
  let (a, FocusComplete) := AnimateFocus h DeltaTime a in
  if PulseComplete && FocusComplete then call (SetActorTickEnabled false) a else a.

(** One frame of the focus animation: the host as it is in that frame
    and the frame's [DeltaTime]. *)
Definition Frame : Type := (Host * float)%type.

(** The actor after each of the frames, in order. *)
Fixpoint FocusTrajectory (frames : list Frame) (a : AUxtPressableButtonActor)
  : list (AUxtPressableButtonActor * bool) :=
  match frames with
  | [] => []
  | (h, DeltaTime) :: rest =>
      let r := AnimateFocus h DeltaTime a in
      r :: FocusTrajectory rest (fst r)
  end.

End WithHeader.

End Button.

(** ** Vocabulary of the statements, and concrete instances *)

Module Vocabulary.

Import Grabbable.

(** The number of [GraspStarted], and of [GraspEnded], calls for [p]. *)
Fixpoint started_count (p : UTouchPointer) (calls : list GraspCall) : nat :=
  match calls with
  | [] => 0
  | CallGraspStarted _ q :: rest =>
      (if Nat.eqb q p then 1 else 0) + started_count p rest
  | CallGraspEnded _ :: rest => started_count p rest
  end.

Fixpoint ended_count (p : UTouchPointer) (calls : list GraspCall) : nat :=
  match calls with
  | [] => 0
  | CallGraspStarted _ _ :: rest => ended_count p rest
  | CallGraspEnded q :: rest =>
      (if Nat.eqb q p then 1 else 0) + ended_count p rest
  end.

(** [p] is grasping after [calls]: it has started more grasps than it has
    ended. *)
Definition grasping (p : UTouchPointer) (calls : list GraspCall) : Prop :=
  ended_count p calls < started_count p calls.

(** The record list holds exactly the grasping pointers, once each. *)
Definition ExactlyGrasping (c : UGrabbableComponent) (calls : list GraspCall) : Prop :=
  NoDup (pointers c) /\
  forall x, In x (pointers c) <-> exists p, x = Some p /\ grasping p calls.

(** The calling discipline of the pointers: a grasp is started only by a
    pointer that is not grasping and ended only by one that is. *)
Inductive Alternating : list GraspCall -> Prop :=
| Alternating_nil : Alternating []
| Alternating_started calls h p :
    Alternating calls -> ~ grasping p calls ->
    Alternating (calls ++ [CallGraspStarted h p])
| Alternating_ended calls p :
    Alternating calls -> grasping p calls ->
    Alternating (calls ++ [CallGraspEnded p]).

(** A transform every component of which is zero. *)
Definition ZeroValued (T : FTransform) : Prop :=
  Rotation T = mkFQuat F32.zero F32.zero F32.zero F32.zero /\
  Translation T = FVectorOps.ZeroVector /\
  Scale3D T = FVectorOps.ZeroVector.

End Vocabulary.

Module Examples.

(** An engine instance for evaluating examples: transforms that only
    translate, rotators read as the vector part of a quaternion. *)
Definition TranslationEngine : Engine :=
  mkEngine
    (fun T v => FVectorOps.add v (Translation T))
    (fun T q => q)
    (fun A B => mkFTransform (Rotation A)
                  (FVectorOps.add (Translation A) (Translation B)) (Scale3D A))
    (fun T => mkFTransform (Rotation T)
                (FVectorOps.sub FVectorOps.ZeroVector (Translation T)) (Scale3D T))
    (fun q => mkFRotator (qX q) (qY q) (qZ q))
    (fun r => mkFQuat (Pitch r) (Yaw r) (Roll r) F32.one)
    (fun r => mkFRotator (F32.sub F32.zero (Pitch r)) (F32.sub F32.zero (Yaw r))
                (F32.sub F32.zero (Roll r)))
    (fun a b => mkFQuat (F32.add (qX a) (qX b)) (F32.add (qY a) (qY b))
                  (F32.add (qZ a) (qZ b)) F32.one).

Definition At (x : Z) : FVector := mkFVector (F32.of_int x) F32.zero F32.zero.

(** A scene in which pointer [p] sits at [x = p] and the grabbed
    component at [x = 10]. *)
Definition Scene : Grabbable.Host :=
  Grabbable.mkHost
    (fun p => At (Z.of_nat p))
    (fun _ => ZeroRotator)
    (fun p => mkFTransform QuatIdentity (At (Z.of_nat p)) FVectorOps.OneVector)
    (mkFTransform QuatIdentity (At 10) FVectorOps.OneVector)
    F32.one.

(** A record whose pointer reference has been nulled. *)
Definition StaleRecord : Grabbable.FGrabPointerData :=
  Grabbable.mkFGrabPointerData None TransformIdentity F32.zero.

Definition LiveRecord : Grabbable.FGrabPointerData :=
  Grabbable.mkFGrabPointerData (Some 7%nat) TransformIdentity F32.zero.

(** Pointer 1 grasps, pointer 2 grasps, pointer 1 releases. *)
Definition TwoHands : list Grabbable.GraspCall :=
  [Grabbable.CallGraspStarted Scene 1%nat; Grabbable.CallGraspStarted Scene 2%nat;
   Grabbable.CallGraspEnded 1%nat].

(** Pointer 1 is reported grasping twice in a row. *)
Definition StartedTwice : list Grabbable.GraspCall :=
  [Grabbable.CallGraspStarted Scene 1%nat; Grabbable.CallGraspStarted Scene 1%nat].

(** Pointer 1 is reported releasing before it ever grasped. *)
Definition EndedFirst : list Grabbable.GraspCall :=
  [Grabbable.CallGraspEnded 1%nat; Grabbable.CallGraspStarted Scene 1%nat].

(** The component after pointers 1 and 2 have grasped. *)
Definition HeldByTwo : Grabbable.UGrabbableComponent :=
  Grabbable.run TranslationEngine
    [Grabbable.CallGraspStarted Scene 1%nat; Grabbable.CallGraspStarted Scene 2%nat]
    (Grabbable.NewComponent true).

(** Modelled from the spec: [IsPulsing], declared in the header that is
    not among the sources.  The pulse timer holds a progress value, or a
    negative marker when no pulse is running; a pulse is in progress,
    rising or fading, when the timer is not the marker. *)
Definition IsPulsingOf (a : Button.AUxtPressableButtonActor) : bool :=
  F32.geb (Button.PulseTimer a) F32.zero.

(** An instance of the header's [GetSize]: the setters store ten times a
    size as [MillimeterSize]; this reads a tenth of it back. *)
Definition GetSizeOf (a : Button.AUxtPressableButtonActor) : FVector :=
  FVectorOps.scale (Button.MillimeterSize a) (F32.div F32.one F32.ten).

Definition PlainVisuals : Button.FUxtButtonVisualsBrush :=
  Button.mkVisuals (Some 1%nat) None (Some 2%nat) None (Some 3%nat) (Some 4%nat)
    F32.half (F32.of_int 0) F32.one None.

(** A button at rest: no pulse running, focus timer at 0, 32 x 32 x 16 mm. *)
Definition RestingButton : Button.AUxtPressableButtonActor :=
  Button.mkActor PlainVisuals FVectorOps.ZeroVector
    (mkFVector (F32.of_int 16) (F32.of_int 32) (F32.of_int 32)) true
    F32.minus_one F32.minus_one F32.zero 0%Z None None [].

(** The same button half way through the rise of a pulse, and fading. *)
Definition RisingButton : Button.AUxtPressableButtonActor :=
  Button.set_PulseMaterialInstance (Some 9%nat) (Button.set_PulseTimer F32.half RestingButton).

Definition FadingButton : Button.AUxtPressableButtonActor :=
  Button.set_PulseFadeTimer F32.half (Button.set_PulseTimer (F32.of_int 2) RisingButton).

Definition ButtonHost (state : Button.EUxtButtonState) : Button.Host :=
  Button.mkHost (Some 2%nat) 9%nat (mkFVector F32.one F32.zero F32.zero)
    (mkFVector F32.one F32.zero F32.zero) FVectorOps.OneVector state
    "FrontPlatePivot"%string (fun _ x => x).

Definition RightHandPointer : Button.UUxtPointerComponent :=
  Button.mkPointer Button.Right TransformIdentity.

(** [2^-30] seconds, about a nanosecond. *)
Definition Nanosecond : float := Eval vm_compute in binary_normalize F32.prec F32.emax 1 (-30) false.

(** The button after one focused frame of [DeltaTime] seconds. *)
Definition FocusedFor (DeltaTime : float) : Button.AUxtPressableButtonActor :=
  fst (Button.AnimateFocus GetSizeOf (ButtonHost Button.Focused) DeltaTime RestingButton).

(** [n] unfocused frames of [DeltaTime] seconds each. *)
Fixpoint UnfocusedFrames (n : nat) (DeltaTime : float) (a : Button.AUxtPressableButtonActor)
  : Button.AUxtPressableButtonActor :=
  match n with
  | O => a
  | S n =>
      fst (Button.AnimateFocus GetSizeOf (ButtonHost Button.Default) DeltaTime
             (UnfocusedFrames n DeltaTime a))
  end.

End Examples.

(** ** The remaining operations of the two files, and what their
    properties are stated with *)

Module GrabbableRest.

Import Grabbable.

Definition GetGrabPointers (c : UGrabbableComponent) : list FGrabPointerData := GrabPointers c.

Definition GetTickOnlyWhileGrabbed (c : UGrabbableComponent) : bool := bTickOnlyWhileGrabbed c.

(** The argument of the most recent [SetTickFunctionEnable] in a log. *)
Fixpoint TickEnabled (calls : list HostCall) : option bool :=
  match calls with
  | [] => None
  | k :: rest =>
      match TickEnabled rest with
      | Some enabled => Some enabled
      | None => match k with SetTickFunctionEnable enabled => Some enabled | _ => None end
      end
  end.

(** The record belongs to pointer [p]. *)
Definition held_by (p : UTouchPointer) (data : FGrabPointerData) : bool :=
  pointer_eqb (Pointer data) (Some p).

(** What the predicate of [GraspEnded] does for the records of [p], in
    list order: unlock the pointer, then broadcast the record. *)
Definition EndNotifications (p : UTouchPointer) (l : list FGrabPointerData) : list HostCall :=
  flat_map (fun data => [SetHoverLocked p false; BroadcastOnEndGrab data]) (filter (held_by p) l).

(** The call [UpdateComponentTickEnabled] makes on a component. *)
Definition TickUpdate (c : UGrabbableComponent) : list HostCall :=
  if bTickOnlyWhileGrabbed c then [SetTickFunctionEnable (Num c >? 0)%Z] else [].

(** Some later call ends the grasp of [p]. *)
Fixpoint EndedLater (p : UTouchPointer) (calls : list GraspCall) : bool :=
  match calls with
  | [] => false
  | CallGraspStarted _ _ :: rest => EndedLater p rest
  | CallGraspEnded q :: rest => Nat.eqb q p || EndedLater p rest
  end.

(** The grasp starts of a history that no later call ends, in call order. *)
Fixpoint Surviving (calls : list GraspCall) : list (Host * UTouchPointer) :=
  match calls with
  | [] => []
  | CallGraspStarted h p :: rest =>
      if EndedLater p rest then Surviving rest else (h, p) :: Surviving rest
  | CallGraspEnded _ :: rest => Surviving rest
  end.

(** A record that was there before the history outlives it: its pointer is
    null, or no call ends its grasp. *)
Definition Outlives (calls : list GraspCall) (data : FGrabPointerData) : bool :=
  match Pointer data with
  | Some p => negb (EndedLater p calls)
  | None => true
  end.

(** The records whose pointer reference is null. *)
Definition StaleRecords (l : list FGrabPointerData) : list FGrabPointerData :=
  filter (fun data => negb (is_valid (Pointer data))) l.

(** The sum of the target locations of the records with a live pointer. *)
Definition LiveTargetSum (h : Host) (l : list FGrabPointerData) : FVector :=
  fold_left
    (fun sum data =>
       match Pointer data with
       | Some p => FVectorOps.add sum (PointerLocation h p)
       | None => sum
       end)
    l FVectorOps.ZeroVector.

End GrabbableRest.

Module ButtonRest.

Import Button.

Definition set_bIsPlated (b : bool) (a : AUxtPressableButtonActor) :=
  mkActor (Visuals a) (IconRelativeLocation a) (MillimeterSize a) b (PulseTimer a)
    (PulseFadeTimer a) (FocusTimer a) (MaterialIndex a) (PrePulseMaterial a)
    (PulseMaterialInstance a) (Calls a).

Definition SetIsPlated (IsPlated : bool) (a : AUxtPressableButtonActor)
  : AUxtPressableButtonActor :=
  if negb (Bool.eqb (bIsPlated a) IsPlated)
  then call (BackPlate_SetVisibility IsPlated) (set_bIsPlated IsPlated a)
  else a.

Definition OnBeginFocus (a : AUxtPressableButtonActor) : AUxtPressableButtonActor :=
  call (SetActorTickEnabled true) a.

(** The actor after [AnimatePulse] has run on each of the frames. *)
Fixpoint PulseFrames (frames : list Frame) (a : AUxtPressableButtonActor)
  : AUxtPressableButtonActor :=
  match frames with
  | [] => a
  | (h, DeltaTime) :: rest => PulseFrames rest (fst (AnimatePulse h DeltaTime a))
  end.

(** The actor after the two animations of a [Tick], before the test that
    may stop the ticking. *)
Definition Animated (GetSize : AUxtPressableButtonActor -> FVector) (h : Host)
    (DeltaTime : float) (a : AUxtPressableButtonActor) : AUxtPressableButtonActor :=
  fst (AnimateFocus GetSize h DeltaTime
         (fst (AnimatePulse h DeltaTime (call (SuperTick DeltaTime) a)))).

(** The [SetActorTickEnabled] calls of a log, in order. *)
Definition TickCalls (calls : list HostCall) : list HostCall :=
  filter (fun k => match k with SetActorTickEnabled _ => true | _ => false end) calls.

(** The actor differs from [a] at most in its call log, which extends
    that of [a]. *)
Definition OnlyCalls (a b : AUxtPressableButtonActor) (added : list HostCall) : Prop :=
  b = mkActor (Visuals a) (IconRelativeLocation a) (MillimeterSize a) (bIsPlated a)
        (PulseTimer a) (PulseFadeTimer a) (FocusTimer a) (MaterialIndex a)
        (PrePulseMaterial a) (PulseMaterialInstance a) (Calls a ++ added).

End ButtonRest.

Module MoreExamples.

(** A pulse whose rise and fade are both over. *)
Definition FinishedButton : Button.AUxtPressableButtonActor :=
  Button.set_PulseFadeTimer (F32.of_int 2) Examples.FadingButton.

Definition LeftHandPointer : Button.UUxtPointerComponent :=
  Button.mkPointer Button.Left TransformIdentity.

(** Three frames of one second each. *)
Definition ThreeSeconds : list Button.Frame :=
  [(Examples.ButtonHost Button.Pressed, F32.one); (Examples.ButtonHost Button.Default, F32.one);
   (Examples.ButtonHost Button.Default, F32.one)].

(** A ninetieth of a second, the frame time of a headset. *)
Definition FrameTime : float := F32.div F32.one (F32.of_int 90).

(** An unending run of unfocused frames of [DeltaTime] seconds each. *)
Definition UnfocusedRun (DeltaTime : float) : nat -> Button.Frame :=
  fun _ => (Examples.ButtonHost Button.Default, DeltaTime).

End MoreExamples.

(** ** Binary32 numbers by value *)

Module F32Value.

Local Open Scope Z_scope.

(** A zero, an infinity, a NaN, or a finite number whose mantissa and
    exponent are those of the binary32 format. *)
Definition is_binary32 (x : float) : bool := valid_binary F32.prec F32.emax x.

(** The value of a positive mantissa at an exponent, in units of [2^-149]. *)
Definition scaled (m : positive) (e : Z) : Z := Zpos m * 2 ^ (e + 149).

(** The magnitude of a finite number in units of [2^-149]. *)
Definition magnitude (x : float) : Z :=
  match x with S754_finite _ m e => scaled m e | _ => 0 end.

(** [-2^-24]: minus the distance between 1 and the binary32 number
    just below it. *)
Definition LeastStep : float := S754_finite true 8388608 (-47).

End F32Value.

(** ** Unending runs of focus frames *)

Module FocusRun.

Import Button.

(** The actor after the first [n] frames of an unending sequence of
    [AnimateFocus] calls, one per frame. *)
Fixpoint FocusAfter (GetSize : AUxtPressableButtonActor -> FVector) (frames : nat -> Frame)
    (n : nat) (a : AUxtPressableButtonActor) : AUxtPressableButtonActor :=
  match n with
  | O => a
  | S n =>
      fst (AnimateFocus GetSize (fst (frames n)) (snd (frames n))
             (FocusAfter GetSize frames n a))
  end.

End FocusRun.
(** ** Grab-pointer bookkeeping *)

Module GrabbableFacts.

Import Grabbable Vocabulary.

Lemma pointer_eqb_eq a b : pointer_eqb a b = true <-> a = b.
Proof.
  destruct a as [x|], b as [y|]; simpl; split; intro H;
    try discriminate; try reflexivity.
  - apply Nat.eqb_eq in H. now subst.
  - injection H as ->. apply Nat.eqb_refl.
Qed.

Lemma pointer_eqb_neq a b : pointer_eqb a b = false <-> a <> b.
Proof.
  split.
  - intros H Heq. apply pointer_eqb_eq in Heq. congruence.
  - intro H. destruct (pointer_eqb a b) eqn:Hab; [|reflexivity].
    apply pointer_eqb_eq in Hab. contradiction.
Qed.

(** [RemoveAll] keeps, in order, the elements its predicate rejects. *)
Lemma RemoveAll_kept {A} (pred : A -> bool * list HostCall) (l : list A) :
  fst (fst (RemoveAll pred l)) = filter (fun x => negb (fst (pred x))) l.
Proof.
  induction l as [|x rest IH]; simpl; [reflexivity|].
  destruct (pred x) as [remove made]. simpl.
  destruct (RemoveAll pred rest) as [[kept later] n]. simpl in *.
  destruct remove; simpl; congruence.
Qed.

(** [RemoveAll] counts what it removes. *)
Lemma RemoveAll_count {A} (pred : A -> bool * list HostCall) (l : list A) :
  (snd (RemoveAll pred l) + Z.of_nat (length (fst (fst (RemoveAll pred l))))
   = Z.of_nat (length l))%Z.
Proof.
  induction l as [|x rest IH]; simpl; [reflexivity|].
  destruct (pred x) as [remove made].
  destruct (RemoveAll pred rest) as [[kept later] n]. simpl in *.
  destruct remove; simpl; lia.
Qed.

Lemma GrabPointers_UpdateComponentTickEnabled c :
  GrabPointers (UpdateComponentTickEnabled c) = GrabPointers c.
Proof. unfold UpdateComponentTickEnabled. now destruct (bTickOnlyWhileGrabbed c). Qed.

Lemma GrabPointers_GraspStarted E h p c :
  GrabPointers (GraspStarted E h p c)
  = GrabPointers c ++ [GraspRecord E h p].
Proof. unfold GraspStarted. now rewrite GrabPointers_UpdateComponentTickEnabled. Qed.

Lemma GrabPointers_GraspEnded p c :
  GrabPointers (GraspEnded p c)
  = filter (fun data => negb (pointer_eqb (Pointer data) (Some p))) (GrabPointers c).
Proof.
  unfold GraspEnded.
  match goal with |- context [RemoveAll ?f ?l] =>
    pose proof (RemoveAll_kept f l) as Hk; destruct (RemoveAll f l) as [[kept made] n]
  end.
  simpl in Hk. subst kept. simpl.
  rewrite GrabPointers_UpdateComponentTickEnabled. simpl.
  apply filter_ext. intro d. now destruct (pointer_eqb (Pointer d) (Some p)).
Qed.

Lemma pointers_GraspStarted E h p c :
  pointers (GraspStarted E h p c) = pointers c ++ [Some p].
Proof. unfold pointers. rewrite GrabPointers_GraspStarted, map_app. reflexivity. Qed.

Lemma pointers_GraspEnded p c :
  pointers (GraspEnded p c)
  = filter (fun x => negb (pointer_eqb x (Some p))) (pointers c).
Proof.
  unfold pointers. rewrite GrabPointers_GraspEnded.
  induction (GrabPointers c) as [|d l IH]; simpl; [reflexivity|].
  destruct (pointer_eqb (Pointer d) (Some p)); simpl; congruence.
Qed.

Lemma run_snoc E calls k c : run E (calls ++ [k]) c = step E (run E calls c) k.
Proof. unfold run. now rewrite fold_left_app. Qed.

Lemma started_count_app p l1 l2 :
  started_count p (l1 ++ l2) = started_count p l1 + started_count p l2.
Proof.
  induction l1 as [|k l1 IH]; simpl; [reflexivity|].
  destruct k; rewrite IH; lia.
Qed.

Lemma ended_count_app p l1 l2 :
  ended_count p (l1 ++ l2) = ended_count p l1 + ended_count p l2.
Proof.
  induction l1 as [|k l1 IH]; simpl; [reflexivity|].
  destruct k; rewrite IH; lia.
Qed.

(** Under the calling discipline a pointer is at most one grasp ahead. *)
Lemma Alternating_balance calls :
  Alternating calls ->
  forall p, ended_count p calls <= started_count p calls <= S (ended_count p calls).
Proof.
  induction 1 as [|calls h q Halt IH Hq|calls q Halt IH Hq]; intro p.
  - simpl. lia.
  - rewrite started_count_app, ended_count_app. simpl.
    specialize (IH p). unfold grasping in Hq.
    destruct (Nat.eqb q p) eqn:Hqp; [apply Nat.eqb_eq in Hqp; subst|]; lia.
  - rewrite started_count_app, ended_count_app. simpl.
    specialize (IH p). unfold grasping in Hq.
    destruct (Nat.eqb q p) eqn:Hqp; [apply Nat.eqb_eq in Hqp; subst|]; lia.
Qed.

Lemma grasping_after_started calls h q p :
  grasping p (calls ++ [CallGraspStarted h q])
  <-> (if Nat.eqb q p then ended_count p calls <= started_count p calls
       else grasping p calls).
Proof.
  unfold grasping. rewrite started_count_app, ended_count_app. simpl.
  destruct (Nat.eqb q p); lia.
Qed.

Lemma grasping_after_ended calls q p :
  grasping p (calls ++ [CallGraspEnded q])
  <-> (if Nat.eqb q p then S (ended_count p calls) < started_count p calls
       else grasping p calls).
Proof.
  unfold grasping. rewrite started_count_app, ended_count_app. simpl.
  destruct (Nat.eqb q p); lia.
Qed.

(** C1, as stated, fails: a pointer reported grasping twice has two
    records, and a release that precedes the grasp leaves a record for a
    pointer whose starts do not exceed its ends. *)
Lemma grasp_records_not_exact_in_general :
  ~ ExactlyGrasping
      (run Examples.TranslationEngine Examples.StartedTwice (NewComponent true))
      Examples.StartedTwice
  /\ ~ ExactlyGrasping
        (run Examples.TranslationEngine Examples.EndedFirst (NewComponent true))
        Examples.EndedFirst.
Proof.
  split.
  - intros [Hnodup _]. vm_compute in Hnodup.
    inversion Hnodup as [|x l Hnotin _]. apply Hnotin. now left.
  - intros [_ Hexact].
    destruct (proj1 (Hexact (Some 1)) ltac:(vm_compute; now left)) as (p & [= <-] & Hp).
    vm_compute in Hp. lia.
Qed.

(** C1 (amended): when every pointer starts a grasp only while it is not
    grasping and ends one only while it is, then after any sequence of
    [GraspStarted] and [GraspEnded] calls on a component that had no
    record the record list holds exactly the grasping pointers (those
    whose starts exceed their ends), each once. *)
Theorem grasp_records_exact_when_alternating E c0 calls :
  GrabPointers c0 = [] ->
  Alternating calls ->
  ExactlyGrasping (run E calls c0) calls.
Proof.
  intros Hempty Halt.
  induction Halt as [|calls h q Halt IH Hq|calls q Halt IH Hq].
  - unfold ExactlyGrasping, pointers. simpl. rewrite Hempty. simpl.
    split; [constructor|]. intro x. split; [tauto|].
    intros (p & _ & Hp). unfold grasping in Hp. simpl in Hp. lia.
  - destruct IH as [Hnodup Hexact].
    pose proof (Alternating_balance _ Halt q) as Hbal.
    rewrite run_snoc. cbn [step]. unfold ExactlyGrasping.
    rewrite pointers_GraspStarted. split.
    + apply NoDup_app; [assumption|repeat constructor; simpl; tauto|].
      intros x Hx [<-|[]]. apply Hexact in Hx.
      destruct Hx as (p & [= <-] & Hp). contradiction.
    + intro x. rewrite in_app_iff, Hexact. simpl. split.
      * intros [(p & -> & Hp)|[<-|[]]].
        -- exists p. split; [reflexivity|]. apply grasping_after_started.
           destruct (Nat.eqb q p) eqn:Hqp; [|assumption]. unfold grasping in Hp. lia.
        -- exists q. split; [reflexivity|]. apply grasping_after_started.
           rewrite Nat.eqb_refl. lia.
      * intros (p & -> & Hp). apply grasping_after_started in Hp.
        destruct (Nat.eqb q p) eqn:Hqp.
        -- apply Nat.eqb_eq in Hqp. subst. right. now left.
        -- left. now exists p.
  - destruct IH as [Hnodup Hexact].
    pose proof (Alternating_balance _ Halt q) as Hbal.
    rewrite run_snoc. cbn [step]. unfold ExactlyGrasping.
    rewrite pointers_GraspEnded. split.
    + now apply NoDup_filter.
    + intro x. rewrite filter_In, Hexact, negb_true_iff, pointer_eqb_neq. split.
      * intros [(p & -> & Hp) Hne]. exists p. split; [reflexivity|].
        apply grasping_after_ended.
        destruct (Nat.eqb q p) eqn:Hqp; [|assumption].
        apply Nat.eqb_eq in Hqp. congruence.
      * intros (p & -> & Hp). apply grasping_after_ended in Hp.
        destruct (Nat.eqb q p) eqn:Hqp.
        -- apply Nat.eqb_eq in Hqp. subst. lia.
        -- split; [now exists p|]. intros [= ->]. rewrite Nat.eqb_refl in Hqp. discriminate.
Qed.

Lemma grasp_records_exact_two_hands :
  ExactlyGrasping
    (run Examples.TranslationEngine Examples.TwoHands (NewComponent true))
    Examples.TwoHands.
Proof.
  apply grasp_records_exact_when_alternating; [reflexivity|].
  change Examples.TwoHands
    with ((([] ++ [CallGraspStarted Examples.Scene 1]) ++ [CallGraspStarted Examples.Scene 2])
          ++ [CallGraspEnded 1]).
  apply Alternating_ended;
    [apply Alternating_started; [apply Alternating_started; [constructor|]|]|];
    unfold grasping; simpl; lia.
Defined.

(** C2: for a record with a valid pointer, the location offset is the
    target location minus the grab location, and the rotation offset is
    the target rotation composed, as quaternions, with the inverse of the
    grab rotation; the target is read from the pointer and no assertion
    is reported. *)
Theorem offsets_are_target_relative_to_grab E h T PointerData p :
  Pointer PointerData = Some p ->
  GetTargetLocation h PointerData = (PointerLocation h p, 0) /\
  GetTargetRotation h PointerData = (PointerRotation h p, 0) /\
  GetLocationOffset E h T PointerData
  = (FVectorOps.sub (fst (GetTargetLocation h PointerData)) (GetGrabLocation E T PointerData), 0)
  /\
  GetRotationOffset E h T PointerData
  = (QuatRotator E
       (QuatMul E
          (MakeQuat E (fst (GetTargetRotation h PointerData)))
          (MakeQuat E (RotatorGetInverse E (GetGrabRotation E T PointerData)))), 0).
Proof.
  intro Hvalid.
  unfold GetLocationOffset, GetRotationOffset, GetTargetLocation, GetTargetRotation.
  rewrite Hvalid. repeat split; reflexivity.
Qed.

Lemma offsets_of_live_record :
  GetLocationOffset Examples.TranslationEngine Examples.Scene TransformIdentity
    Examples.LiveRecord
  = (FVectorOps.sub
       (fst (GetTargetLocation Examples.Scene Examples.LiveRecord))
       (GetGrabLocation Examples.TranslationEngine TransformIdentity Examples.LiveRecord), 0).
Proof.
  apply (offsets_are_target_relative_to_grab Examples.TranslationEngine Examples.Scene
           TransformIdentity Examples.LiveRecord 7%nat).
  reflexivity.
Defined.

(** C6, as stated, fails for [GetTargetTransform]: the transform returned
    for a stale record has unit scale and a unit quaternion, so it is not
    zero-valued. *)
Lemma stale_target_transform_is_not_zero_valued :
  ~ ZeroValued (fst (GetTargetTransform Examples.Scene Examples.StaleRecord))
  /\ F32.eqb (vX (Scale3D (fst (GetTargetTransform Examples.Scene Examples.StaleRecord))))
       F32.zero = false
  /\ F32.eqb (qW (Rotation (fst (GetTargetTransform Examples.Scene Examples.StaleRecord))))
       F32.zero = false.
Proof.
  split; [|split; reflexivity].
  intros (_ & _ & Hscale). vm_compute in Hscale. discriminate.
Qed.

(** C6 (amended): for a record whose pointer reference is null, each
    target query reports one failed assertion and returns a default:
    [GetTargetLocation] the zero vector, [GetTargetRotation] the zero
    rotator and [GetTargetTransform] the identity transform (zero
    translation, identity rotation, unit scale). *)
Theorem stale_record_queries_default h PointerData :
  Pointer PointerData = None ->
  GetTargetLocation h PointerData = (FVectorOps.ZeroVector, 1) /\
  GetTargetRotation h PointerData = (ZeroRotator, 1) /\
  GetTargetTransform h PointerData = (TransformIdentity, 1) /\
  GetLocation TransformIdentity = FVectorOps.ZeroVector /\
  GetRotation TransformIdentity = QuatIdentity /\
  Scale3D TransformIdentity = FVectorOps.OneVector.
Proof.
  intro Hnull. unfold GetTargetLocation, GetTargetRotation, GetTargetTransform.
  rewrite Hnull. repeat split; reflexivity.
Qed.

Lemma stale_record_queries_default_example :
  GetTargetTransform Examples.Scene Examples.StaleRecord = (TransformIdentity, 1).
Proof.
  apply (stale_record_queries_default Examples.Scene Examples.StaleRecord).
  reflexivity.
Defined.

(** C7: with no record both centroids are the zero vector, whatever the
    transform; the divisor is the maximum of the record count and 1, so
    it is 1 here and never less than 1. *)
Theorem centroids_of_no_pointer_are_zero E h T c :
  GrabPointers c = [] ->
  GetGrabPointCentroid E T c = FVectorOps.ZeroVector /\
  GetTargetCentroid h c = (FVectorOps.ZeroVector, 0) /\
  CentroidDivisor c = 1%Z /\
  (forall c', CentroidDivisor c' = Z.max (Num c') 1 /\ (1 <= CentroidDivisor c')%Z).
Proof.
  intro Hempty.
  unfold GetGrabPointCentroid, GetTargetCentroid, CentroidDivisor, Num.
  rewrite Hempty. repeat split; try reflexivity;
    unfold FMath.Max; destruct (Z.geb_spec (Z.of_nat (length (GrabPointers c'))) 1); lia.
Qed.

Lemma centroids_of_new_component_are_zero :
  GetGrabPointCentroid Examples.TranslationEngine TransformIdentity (NewComponent true)
  = FVectorOps.ZeroVector.
Proof.
  apply (centroids_of_no_pointer_are_zero Examples.TranslationEngine Examples.Scene
           TransformIdentity (NewComponent true)).
  reflexivity.
Defined.

Lemma FindGrabPointerFrom_absent ptr l i :
  ~ In ptr (map Pointer l) -> FindGrabPointerFrom ptr l i = (false, None, (-1)%Z).
Proof.
  revert i. induction l as [|d l IH]; intros i Hnotin; simpl; [reflexivity|].
  simpl in Hnotin.
  destruct (pointer_eqb (Pointer d) ptr) eqn:Hd.
  - apply pointer_eqb_eq in Hd. tauto.
  - apply IH. tauto.
Qed.

Lemma FindGrabPointerFrom_present ptr l i :
  In ptr (map Pointer l) ->
  exists n data,
    FindGrabPointerFrom ptr l i = (true, Some data, (i + Z.of_nat n)%Z) /\
    nth_error l n = Some data /\ Pointer data = ptr /\
    forall j data', j < n -> nth_error l j = Some data' -> Pointer data' <> ptr.
Proof.
  revert i. induction l as [|d l IH]; intros i Hin; simpl in *; [contradiction|].
  destruct (pointer_eqb (Pointer d) ptr) eqn:Hd.
  - apply pointer_eqb_eq in Hd. exists 0, d. rewrite Z.add_0_r.
    repeat split; trivial. intros j data' Hj. lia.
  - apply pointer_eqb_neq in Hd.
    destruct Hin as [Hin|Hin]; [contradiction|].
    destruct (IH (i + 1)%Z Hin) as (n & data & Hfind & Hnth & Hptr & Hfirst).
    exists (S n), data. rewrite Hfind. repeat split; trivial.
    + f_equal. lia.
    + intros [|j] data' Hj Hnth'; simpl in Hnth'.
      * now injection Hnth' as <-.
      * apply (Hfirst j); [lia|assumption].
Qed.

(** C9: for a pointer with no record [FindGrabPointer] sets [Success] to
    false and [Index] to -1 and leaves [PointerData] as it was; for a
    pointer with a record it sets [Success] to true, copies the first
    matching record and sets [Index] to its position. *)
Theorem FindGrabPointer_outputs c ptr PointerData0 :
  (~ In ptr (pointers c) ->
   FindGrabPointer c ptr PointerData0 = (false, PointerData0, (-1)%Z)) /\
  (In ptr (pointers c) ->
   exists i data,
     FindGrabPointer c ptr PointerData0 = (true, data, Z.of_nat i) /\
     nth_error (GrabPointers c) i = Some data /\ Pointer data = ptr /\
     forall j data', j < i -> nth_error (GrabPointers c) j = Some data' ->
                     Pointer data' <> ptr).
Proof.
  unfold FindGrabPointer, FindGrabPointerInternal, pointers. split; intro H.
  - now rewrite (FindGrabPointerFrom_absent _ _ 0%Z H).
  - destruct (FindGrabPointerFrom_present ptr (GrabPointers c) 0 H)
      as (n & data & Hfind & Hrest).
    exists n, data. rewrite Hfind. now split.
Qed.

Lemma FindGrabPointer_outputs_example :
  FindGrabPointer Examples.HeldByTwo (Some 5) Examples.StaleRecord
  = (false, Examples.StaleRecord, (-1)%Z)
  /\ exists i data,
       FindGrabPointer Examples.HeldByTwo (Some 2) Examples.StaleRecord
       = (true, data, Z.of_nat i) /\
       nth_error (GrabPointers Examples.HeldByTwo) i = Some data /\
       Pointer data = Some 2 /\
       forall j data', j < i -> nth_error (GrabPointers Examples.HeldByTwo) j = Some data' ->
                       Pointer data' <> Some 2.
Proof.
  split.
  - apply (proj1 (FindGrabPointer_outputs Examples.HeldByTwo (Some 5) Examples.StaleRecord)).
    vm_compute. intros [H|[H|[]]]; discriminate H.
  - apply (proj2 (FindGrabPointer_outputs Examples.HeldByTwo (Some 2) Examples.StaleRecord)).
    vm_compute. right. left. reflexivity.
Defined.

Lemma Num_lt_length c n : (Num c < Z.of_nat n)%Z <-> length (GrabPointers c) < n.
Proof. unfold Num. lia. Qed.

(** C5: on a component without records, after [GraspStarted] for [A] and
    then for another pointer [B], the primary accessor yields the record
    made for [A] (its pointer is [A], its grab point and start time those
    taken at [A]'s grasp) and the secondary accessor the record made for
    [B], both valid; after [GraspEnded] for [A] the record of [A] is gone,
    the one record left is [B]'s, and the primary accessor yields it,
    while the secondary accessor reports invalid; with fewer than one
    (two) records the primary (secondary) accessor reports invalid and
    leaves [PointerData]. *)
Theorem primary_then_secondary E hA hB A B c0 PointerData0 :
  GrabPointers c0 = [] ->
  A <> B ->
  let held := GraspStarted E hB B (GraspStarted E hA A c0) in
  let recordA :=
    mkFGrabPointerData (Some A)
      (TransformMul E (PointerTransform hA A) (TransformInverse E (ComponentTransform hA)))
      (TimeSeconds hA) in
  let recordB :=
    mkFGrabPointerData (Some B)
      (TransformMul E (PointerTransform hB B) (TransformInverse E (ComponentTransform hB)))
      (TimeSeconds hB) in
  GetPrimaryGrabPointer held PointerData0 = (true, recordA) /\
  GetSecondaryGrabPointer held PointerData0 = (true, recordB) /\
  GetPrimaryGrabPointer (GraspEnded A held) PointerData0 = (true, recordB) /\
  (forall c, (Num c < 1)%Z -> GetPrimaryGrabPointer c PointerData0 = (false, PointerData0)) /\
  (forall c, (Num c < 2)%Z -> GetSecondaryGrabPointer c PointerData0 = (false, PointerData0)) /\
  Pointer (snd (GetPrimaryGrabPointer held PointerData0)) = Some A /\
  Pointer (snd (GetSecondaryGrabPointer held PointerData0)) = Some B /\
  Pointer (snd (GetPrimaryGrabPointer (GraspEnded A held) PointerData0)) = Some B /\
  GrabPointers held = [recordA; recordB] /\
  GrabPointers (GraspEnded A held) = [recordB] /\
  ~ In (Some A) (pointers (GraspEnded A held)) /\
  GetSecondaryGrabPointer (GraspEnded A held) PointerData0 = (false, PointerData0).
Proof.
  intros Hempty Hdistinct held recordA recordB.
  assert (Hheld : GrabPointers held = [recordA; recordB]).
  { unfold held. rewrite !GrabPointers_GraspStarted, Hempty. reflexivity. }
  assert (Hreleased : GrabPointers (GraspEnded A held) = [recordB]).
  { rewrite GrabPointers_GraspEnded, Hheld. simpl.
    rewrite Nat.eqb_refl. simpl.
    destruct (Nat.eqb B A) eqn:HBA; [|reflexivity].
    apply Nat.eqb_eq in HBA. congruence. }
  unfold pointers, GetPrimaryGrabPointer, GetSecondaryGrabPointer, Num.
  rewrite Hreleased, Hheld. simpl. repeat split; trivial.
  - intros c Hc. destruct (Z.geb_spec (Z.of_nat (length (GrabPointers c))) 1); [lia|reflexivity].
  - intros c Hc. destruct (Z.geb_spec (Z.of_nat (length (GrabPointers c))) 2); [lia|reflexivity].
  - intros [H|[]]. congruence.
Qed.

Lemma primary_then_secondary_example :
  GetPrimaryGrabPointer
    (GraspEnded 1 (GraspStarted Examples.TranslationEngine Examples.Scene 2
                     (GraspStarted Examples.TranslationEngine Examples.Scene 1
                        (NewComponent true))))
    Examples.StaleRecord
  = (true,
     mkFGrabPointerData (Some 2%nat)
       (TransformMul Examples.TranslationEngine (PointerTransform Examples.Scene 2%nat)
          (TransformInverse Examples.TranslationEngine (ComponentTransform Examples.Scene)))
       (TimeSeconds Examples.Scene))
  /\ pointers
       (GraspStarted Examples.TranslationEngine Examples.Scene 2
          (GraspStarted Examples.TranslationEngine Examples.Scene 1 (NewComponent true)))
     = [Some 1%nat; Some 2%nat]
  /\ pointers
       (GraspEnded 1 (GraspStarted Examples.TranslationEngine Examples.Scene 2
                        (GraspStarted Examples.TranslationEngine Examples.Scene 1
                           (NewComponent true))))
     = [Some 2%nat].
Proof.
  pose proof (primary_then_secondary Examples.TranslationEngine Examples.Scene Examples.Scene
                1%nat 2%nat (NewComponent true) Examples.StaleRecord eq_refl
                ltac:(discriminate)) as H.
  cbv zeta in H.
  destruct H as (_ & _ & Hprimary & _ & _ & _ & _ & _ & Hheld & Hreleased & _).
  split; [exact Hprimary|].
  unfold pointers. rewrite Hheld, Hreleased. split; reflexivity.
Defined.

End GrabbableFacts.

(** ** Binary32 comparisons against 0 and 1 *)

Module F32Facts.

Lemma ltb_leb x y : F32.ltb x y = true -> F32.leb x y = true.
Proof.
  unfold F32.ltb, F32.leb, SFltb, SFleb.
  destruct (SFcompare x y) as [[]|]; congruence.
Qed.

Lemma eqb_leb x y : F32.eqb x y = true -> F32.leb x y = true.
Proof.
  unfold F32.eqb, F32.leb, SFeqb, SFleb.
  destruct (SFcompare x y) as [[]|]; congruence.
Qed.

(** A value that is neither below 0 nor unordered is at least 0. *)
Lemma not_below_zero x y :
  F32.ltb x F32.zero = false -> F32.ltb x y = true -> F32.leb F32.zero x = true.
Proof.
  destruct x as [s|s| |s m e]; try destruct s; simpl; intros H0 H1;
    try reflexivity; try discriminate.
Qed.

Lemma above_one_is_nonnegative x :
  F32.gtb x F32.one = true -> F32.geb x F32.zero = true.
Proof.
  destruct x as [s|s| |s m e]; try destruct s; simpl; intro H;
    try reflexivity; try discriminate.
Qed.

Lemma zero_le_one : F32.leb F32.zero F32.one = true.
Proof. reflexivity. Qed.

(** [FMath::Clamp(x, 0, 1)] lies in [[0, 1]] for every [x], a NaN
    included. *)
Lemma Clamp_unit_range x :
  F32.leb F32.zero (FMath.Clamp x F32.zero F32.one) = true /\
  F32.leb (FMath.Clamp x F32.zero F32.one) F32.one = true.
Proof.
  unfold FMath.Clamp.
  destruct (F32.ltb x F32.zero) eqn:H0; [split; reflexivity|].
  destruct (F32.ltb x F32.one) eqn:H1; [|split; reflexivity].
  split; [exact (not_below_zero _ _ H0 H1)|exact (ltb_leb _ _ H1)].
Qed.

Lemma eqb_zero_cases x :
  F32.eqb x F32.zero = true -> F32.ltb x F32.zero = false /\ F32.ltb x F32.one = true.
Proof.
  destruct x as [s|s| |s m e]; try destruct s; simpl; intro H;
    try discriminate; split; reflexivity.
Qed.

End F32Facts.

(** ** Binary32 rounding: values, order and the sum of a timer and a step *)

Module F32Rounding.

Import F32Value.

Local Open Scope Z_scope.

Lemma fexp_value e : fexp F32.prec F32.emax e = Z.max (e - 24) (-149).
Proof. reflexivity. Qed.

(** *** Binary digits *)

Lemma digits2_bounds p :
  2 ^ (Zpos (digits2_pos p) - 1) <= Zpos p < 2 ^ Zpos (digits2_pos p).
Proof.
  induction p as [p IH|p IH|]; cbn [digits2_pos].
  - rewrite Pos2Z.inj_succ.
    replace (Z.succ (Zpos (digits2_pos p)) - 1) with (Z.succ (Zpos (digits2_pos p) - 1)) by lia.
    rewrite !Z.pow_succ_r by lia. lia.
  - rewrite Pos2Z.inj_succ.
    replace (Z.succ (Zpos (digits2_pos p)) - 1) with (Z.succ (Zpos (digits2_pos p) - 1)) by lia.
    rewrite !Z.pow_succ_r by lia. lia.
  - simpl. lia.
Qed.

Lemma digits2_unique p d :
  2 ^ (d - 1) <= Zpos p < 2 ^ d -> Zpos (digits2_pos p) = d.
Proof.
  intros [Hlo Hhi]. pose proof (digits2_bounds p) as [Hlo' Hhi'].
  assert (Hd : 0 < d).
  { destruct (Z.ltb_spec 0 d) as [|Hneg]; [assumption|].
    assert (2 ^ d <= 1).
    { destruct (Z.eq_dec d 0) as [->|]; [simpl; lia|].
      rewrite Z.pow_neg_r by lia. lia. }
    lia. }
  destruct (Z.lt_trichotomy (Zpos (digits2_pos p)) d) as [Hlt|[Heq|Hgt]]; [|assumption|].
  - assert (2 ^ Zpos (digits2_pos p) <= 2 ^ (d - 1)) by (apply Z.pow_le_mono_r; lia). lia.
  - assert (2 ^ d <= 2 ^ (Zpos (digits2_pos p) - 1)) by (apply Z.pow_le_mono_r; lia). lia.
Qed.

(** *** Shifting right, one bit at a time *)

Lemma iter_pos_nat {A} (f : A -> A) p x :
  iter_pos f p x = Nat.iter (Pos.to_nat p) f x.
Proof.
  revert x. induction p as [p IH|p IH|]; intro x; cbn [iter_pos].
  - rewrite !IH, Pos2Nat.inj_xI.
    replace (S (2 * Pos.to_nat p)) with (Pos.to_nat p + (Pos.to_nat p + 1))%nat by lia.
    rewrite !Nat.iter_add. reflexivity.
  - rewrite !IH, Pos2Nat.inj_xO.
    replace (2 * Pos.to_nat p)%nat with (Pos.to_nat p + Pos.to_nat p)%nat by lia.
    rewrite Nat.iter_add. reflexivity.
  - reflexivity.
Qed.

Lemma shr_1_nonneg m r s :
  0 <= m ->
  shr_1 (Build_shr_record m r s) = Build_shr_record (m / 2) (Z.odd m) (r || s).
Proof.
  intro Hm. destruct m as [|p|p]; [reflexivity| |lia].
  destruct p as [p|p|]; cbn [shr_1].
  - f_equal. rewrite Pos2Z.inj_xI. 
    replace (2 * Zpos p + 1) with (1 + Zpos p * 2) by lia.
    rewrite Z.div_add by lia. reflexivity.
  - f_equal. rewrite Pos2Z.inj_xO.
    replace (2 * Zpos p) with (0 + Zpos p * 2) by lia.
    rewrite Z.div_add by lia. reflexivity.
  - reflexivity.
Qed.

(** After [k + 1] shifts of [m]: the quotient by [2^(k+1)], and as round
    bit the lowest bit shifted out last. *)
Lemma shr_iter m k :
  0 <= m ->
  shr_m (Nat.iter (S k) shr_1 (Build_shr_record m false false)) = m / 2 ^ (Z.of_nat k + 1) /\
  shr_r (Nat.iter (S k) shr_1 (Build_shr_record m false false)) = Z.odd (m / 2 ^ Z.of_nat k).
Proof.
  intro Hm. induction k as [|k [IHm IHr]].
  - cbn [Nat.iter]. rewrite shr_1_nonneg by assumption. simpl.
    rewrite Z.div_1_r. split; reflexivity.
  - change (Nat.iter (S (S k)) shr_1 ?r) with (shr_1 (Nat.iter (S k) shr_1 r)).
    destruct (Nat.iter (S k) shr_1 (Build_shr_record m false false)) as [m' r' s'].
    cbn [shr_m shr_r] in *. subst m'.
    rewrite shr_1_nonneg by (apply Z.div_pos; lia). cbn [shr_m shr_r].
    rewrite Z.div_div by lia.
    replace (Z.of_nat (S k) + 1) with (Z.succ (Z.of_nat k + 1)) by lia.
    replace (Z.of_nat (S k)) with (Z.of_nat k + 1) by lia.
    rewrite Z.pow_succ_r by lia. rewrite (Z.mul_comm 2). split; reflexivity.
Qed.

Lemma odd_quotient_rounds_up m k :
  0 <= m -> 0 <= k -> Z.odd (m / 2 ^ k) = true ->
  (m / 2 ^ (k + 1) + 1) * 2 ^ (k + 1) <= m + 2 ^ k.
Proof.
  intros Hm Hk Hodd.
  assert (HP : 0 < 2 ^ k) by (apply Z.pow_pos_nonneg; lia).
  rewrite Z.pow_add_r, Z.pow_1_r by lia.
  rewrite <- Z.div_div by lia.
  set (a := m / 2 ^ k) in *.
  assert (Ha : 2 ^ k * a <= m) by (apply Z.mul_div_le; lia).
  rewrite (Zodd_div2 a) in Ha by (now rewrite Zodd_bool_iff in *|| now apply Zodd_bool_iff).
  rewrite Z.div2_div in Ha. nia.
Qed.

(** Rounding to nearest after a shift by [p] bits: the quotient or its
    successor, never more than half a unit above the exact value. *)
Lemma round_after_shift m p :
  0 <= m ->
  let rec := iter_pos shr_1 p (Build_shr_record m false false) in
  let rounded := round_nearest_even (shr_m rec) (loc_of_shr_record rec) in
  m / 2 ^ Zpos p <= rounded <= m / 2 ^ Zpos p + 1 /\
  rounded * 2 ^ Zpos p <= m + 2 ^ (Zpos p - 1).
Proof.
  intros Hm rec rounded. subst rec rounded.
  rewrite iter_pos_nat.
  destruct (Pos2Nat.is_succ p) as [k Hk]. rewrite Hk.
  assert (HZ : Zpos p = Z.of_nat k + 1) by lia.
  destruct (shr_iter m k Hm) as [Hq Hr].
  destruct (Nat.iter (S k) shr_1 (Build_shr_record m false false)) as [m1 r1 s1].
  cbn [shr_m shr_r] in *. rewrite HZ, <- Hq.
  assert (Hfloor : m1 * 2 ^ (Z.of_nat k + 1) <= m).
  { rewrite Hq, Z.mul_comm. apply Z.mul_div_le. apply Z.pow_pos_nonneg; lia. }
  assert (Hhalf : 0 <= 2 ^ (Z.of_nat k + 1 - 1)) by (apply Z.pow_nonneg; lia).
  assert (Hup : r1 = true -> (m1 + 1) * 2 ^ (Z.of_nat k + 1) <= m + 2 ^ (Z.of_nat k + 1 - 1)).
  { intros ->. rewrite Hq. replace (Z.of_nat k + 1 - 1) with (Z.of_nat k) by lia.
    apply odd_quotient_rounds_up; [lia|lia|now symmetry]. }
  destruct r1, s1; cbn [loc_of_shr_record round_nearest_even];
    try destruct (Z.even m1); split; try lia; try (specialize (Hup eq_refl); lia).
Qed.

Lemma canonical_iff m e :
  canonical_mantissa F32.prec F32.emax m e = true
  <-> Z.max (Zpos (digits2_pos m) + e - 24) (-149) = e.
Proof. unfold canonical_mantissa. rewrite Z.eqb_eq, fexp_value. reflexivity. Qed.

(** [binary_round_aux] on an exact positive mantissa that needs no left
    shift: a zero, an infinity when the exponent overflows, or a canonical
    value at most half a unit of its exponent above the exact one. *)
Lemma binary_round_aux_positive sx m e :
  let e' := Z.max (Zpos (digits2_pos m) + e - 24) (-149) in
  e <= e' ->
  binary_round_aux F32.prec F32.emax sx (Zpos m) e loc_Exact = S754_zero sx
  \/ (binary_round_aux F32.prec F32.emax sx (Zpos m) e loc_Exact = S754_infinity sx /\
      104 < e' + 1)
  \/ exists m2 e2,
      binary_round_aux F32.prec F32.emax sx (Zpos m) e loc_Exact = S754_finite sx m2 e2 /\
      canonical_mantissa F32.prec F32.emax m2 e2 = true /\
      e' <= e2 <= e' + 1 /\ e2 <= 104 /\
      Zpos m2 * 2 ^ (e2 - e) <= Zpos m + (if e <? e' then 2 ^ (e' - e - 1) else 0).
Proof.
  intros e' Hshift.
  pose proof (digits2_bounds m) as [Hdlo Hdhi].
  set (d := Zpos (digits2_pos m)) in *.
  unfold binary_round_aux, shr_fexp. cbn [Zdigits2]. rewrite fexp_value. fold d. fold e'.
  change (F32.emax - F32.prec) with 104.
  destruct (e' - e) as [|p|p] eqn:Hn; [| |lia].
  - (* no shift *)
    assert (He : e' = e) by lia.
    cbn [shr shr_record_of_loc shr_m loc_of_shr_record round_nearest_even Zdigits2].
    rewrite fexp_value. fold d. fold e'. rewrite Hn.
    cbn [shr shr_record_of_loc shr_m].
    destruct (Z.leb_spec e 104) as [Hfit|Hover]; [|right; left; split; [reflexivity|lia]].
    right. right. exists m, e.
    split; [reflexivity|]. split; [apply canonical_iff; fold d; fold e'; lia|].
    split; [lia|]. split; [lia|]. rewrite Z.sub_diag, Z.mul_1_r.
    destruct (e <? e'); [|lia].
    assert (0 <= 2 ^ (e' - e - 1)) by (apply Z.pow_nonneg; lia). lia.
  - (* a shift by p bits, then rounding *)
    cbn [shr shr_record_of_loc].
    pose proof (round_after_shift (Zpos m) p ltac:(lia)) as Hround. cbn zeta in Hround.
    set (rec := iter_pos shr_1 p (Build_shr_record (Zpos m) false false)) in *.
    set (m2 := round_nearest_even (shr_m rec) (loc_of_shr_record rec)) in *.
    destruct Hround as [[Hlo Hhi] Hhalf].
    assert (Hp : 0 < 2 ^ Zpos p) by (apply Z.pow_pos_nonneg; lia).
    assert (Hq : 0 <= Zpos m / 2 ^ Zpos p) by (apply Z.div_pos; lia).
    assert (He1 : e + Zpos p = e') by lia. rewrite He1.
    assert (Hsmall : Zpos m / 2 ^ Zpos p < 2 ^ 24).
    { apply Z.div_lt_upper_bound; [lia|].
      rewrite <- Z.pow_add_r by lia.
      apply Z.lt_le_trans with (1 := Hdhi). apply Z.pow_le_mono_r; lia. }
    assert (Hnormal : -149 <= d + e - 24 -> 2 ^ 23 <= Zpos m / 2 ^ Zpos p).
    { intro Hgt. apply Z.div_le_lower_bound; [lia|].
      rewrite <- Z.pow_add_r by lia.
      apply Z.le_trans with (2 := Hdlo). apply Z.pow_le_mono_r; lia. }
    assert (Hlt : (e <? e') = true) by (apply Z.ltb_lt; lia). rewrite Hlt.
    replace (e' - e - 1) with (Zpos p - 1) by lia.
    destruct m2 as [|q|q] eqn:Hm2; [| |lia].
    + (* rounded to zero *)
      left. cbn [Zdigits2]. rewrite fexp_value.
      replace (Z.max (0 + e' - 24) (-149) - e') with (Z.max (e' - 24) (-149) - e')
        by (f_equal; f_equal; lia).
      destruct (Z.max (e' - 24) (-149) - e') as [|r|r] eqn:Hn2; [reflexivity|lia|reflexivity].
    + right. cbn [Zdigits2]. rewrite fexp_value.
      pose proof (digits2_bounds q) as [Hqlo Hqhi].
      destruct (Z.eq_dec (Zpos q) (2 ^ 24)) as [Hcarry|Hnocarry].
      * (* the mantissa overflowed into a 25th bit *)
        assert (Hd2 : Zpos (digits2_pos q) = 25).
        { apply digits2_unique. rewrite Hcarry. simpl. lia. }
        assert (Hgt : -149 <= d + e - 24).
        { destruct (Z.leb_spec (-149) (d + e - 24)) as [|Hle]; [assumption|].
          assert (Zpos m / 2 ^ Zpos p < 2 ^ 23).
          { apply Z.div_lt_upper_bound; [lia|].
            rewrite <- Z.pow_add_r by lia.
            apply Z.lt_le_trans with (1 := Hdhi). apply Z.pow_le_mono_r; lia. }
          simpl in *. lia. }
        rewrite Hd2.
        replace (Z.max (25 + e' - 24) (-149) - e') with 1 by lia.
        cbn [shr shr_record_of_loc iter_pos].
        assert (Hq2 : q = 16777216%positive) by (simpl in Hcarry; lia). subst q.
        cbn [shr_1 shr_m].
        destruct (Z.leb_spec (e' + 1) 104) as [Hfit|Hover]; [|left; split; [reflexivity|lia]].
        right. exists 8388608%positive, (e' + 1).
        split; [reflexivity|].
        split; [apply canonical_iff; change (Zpos (digits2_pos 8388608)) with 24; lia|].
        split; [lia|]. split; [lia|].
        replace (e' + 1 - e) with (Zpos p + 1) by lia.
        rewrite Z.pow_add_r, Z.pow_1_r by lia. lia.
      * assert (Hq24 : Zpos q < 2 ^ 24) by lia.
        assert (Hd2 : Zpos (digits2_pos q) <= 24).
        { destruct (Z.leb_spec (Zpos (digits2_pos q)) 24) as [|Hbig]; [assumption|].
          assert (2 ^ 24 <= 2 ^ (Zpos (digits2_pos q) - 1)) by (apply Z.pow_le_mono_r; lia).
          lia. }
        assert (Hd2' : -149 <= d + e - 24 -> Zpos (digits2_pos q) = 24).
        { intro Hgt. apply digits2_unique. specialize (Hnormal Hgt). simpl in *. lia. }
        assert (Hfix : Z.max (Zpos (digits2_pos q) + e' - 24) (-149) = e').
        { destruct (Z.leb_spec (-149) (d + e - 24)) as [Hgt|Hle];
            [rewrite (Hd2' Hgt); lia|lia]. }
        rewrite Hfix, Z.sub_diag. cbn [shr shr_record_of_loc shr_m].
        destruct (Z.leb_spec e' 104) as [Hfit|Hover]; [|left; split; [reflexivity|lia]].
        right. exists q, e'.
        split; [reflexivity|]. split; [now apply canonical_iff|].
        split; [lia|]. split; [lia|].
        replace (e' - e) with (Zpos p) by lia. exact Hhalf.
Qed.

(** *** Aligning to a smaller exponent *)

Lemma iter_xO m d : Zpos (Pos.iter xO m d) = Zpos m * 2 ^ Zpos d.
Proof.
  induction d as [|d IH] using Pos.peano_ind.
  - cbn [Pos.iter]. rewrite Pos2Z.inj_xO. change (2 ^ 1) with 2. lia.
  - rewrite Pos.iter_succ, Pos2Z.inj_xO, IH, Pos2Z.inj_succ, Z.pow_succ_r by lia. lia.
Qed.

Lemma shl_align_spec mx ex ex' :
  snd (shl_align mx ex ex') = Z.min ex ex' /\
  Zpos (fst (shl_align mx ex ex')) = Zpos mx * 2 ^ (ex - Z.min ex ex').
Proof.
  unfold shl_align. destruct (ex' - ex) as [|d|d] eqn:Hd; cbn [fst snd].
  - replace (Z.min ex ex') with ex by lia. rewrite Z.sub_diag. split; lia.
  - replace (Z.min ex ex') with ex by lia. rewrite Z.sub_diag. split; lia.
  - replace (Z.min ex ex') with ex' by lia. rewrite iter_xO.
    replace (ex - ex') with (Zpos d) by lia. split; reflexivity.
Qed.

Lemma digits2_shifted m k m' :
  0 <= k -> Zpos m' = Zpos m * 2 ^ k ->
  Zpos (digits2_pos m') = Zpos (digits2_pos m) + k.
Proof.
  intros Hk Hm'. apply digits2_unique. rewrite Hm'.
  pose proof (digits2_bounds m) as [Hlo Hhi].
  assert (Hp : 0 < 2 ^ k) by (apply Z.pow_pos_nonneg; lia).
  replace (Zpos (digits2_pos m) + k - 1) with (Zpos (digits2_pos m) - 1 + k) by lia.
  rewrite !Z.pow_add_r by lia. nia.
Qed.

(** [binary_round] of a multiple of [2^-149]: a zero, an infinity when
    the exponent overflows, or a canonical value at most half a unit of its
    exponent above the exact one in magnitude. *)
Lemma binary_round_spec sx m e :
  -149 <= e ->
  let e' := Z.max (Zpos (digits2_pos m) + e - 24) (-149) in
  binary_round F32.prec F32.emax sx m e = S754_zero sx
  \/ (binary_round F32.prec F32.emax sx m e = S754_infinity sx /\ 104 < e' + 1)
  \/ exists m2 e2,
      binary_round F32.prec F32.emax sx m e = S754_finite sx m2 e2 /\
      canonical_mantissa F32.prec F32.emax m2 e2 = true /\
      e' <= e2 <= e' + 1 /\ e2 <= 104 /\
      scaled m2 e2 <= scaled m e + 2 ^ (e' - 1 + 149).
Proof.
  intros He e'. unfold binary_round. rewrite fexp_value. fold e'.
  destruct (shl_align_spec m e e') as [Hez Hmz].
  destruct (shl_align m e e') as [mz ez]. cbn [fst snd] in Hez, Hmz.
  assert (Hdz : Zpos (digits2_pos mz) = Zpos (digits2_pos m) + (e - ez))
    by (apply digits2_shifted; [lia|now rewrite Hmz, Hez]).
  assert (He' : Z.max (Zpos (digits2_pos mz) + ez - 24) (-149) = e') by (unfold e'; lia).
  pose proof (binary_round_aux_positive sx mz ez) as Haux. cbn zeta in Haux.
  rewrite He' in Haux.
  destruct (Haux ltac:(lia)) as [Hzero|[Hinf|(m2 & e2 & Hr & Hcan & He2 & Hfit & Hval)]];
    [now left|now right; left|right; right].
  exists m2, e2. repeat split; try assumption; try lia.
  unfold scaled.
  assert (Hez149 : 0 < 2 ^ (ez + 149)) by (apply Z.pow_pos_nonneg; lia).
  assert (Hm2 : Zpos m2 * 2 ^ (e2 + 149) = Zpos m2 * 2 ^ (e2 - ez) * 2 ^ (ez + 149)).
  { rewrite <- Z.mul_assoc, <- Z.pow_add_r by lia. do 2 f_equal. lia. }
  assert (Hm : Zpos m * 2 ^ (e + 149) = Zpos mz * 2 ^ (ez + 149)).
  { rewrite Hmz, Hez, <- Z.mul_assoc, <- Z.pow_add_r by lia. do 2 f_equal. lia. }
  rewrite Hm2, Hm.
  destruct (ez <? e') eqn:Hlt.
  - apply Z.ltb_lt in Hlt.
    assert (Hh : 2 ^ (e' - 1 + 149) = 2 ^ (e' - ez - 1) * 2 ^ (ez + 149)).
    { rewrite <- Z.pow_add_r by lia. f_equal. lia. }
    rewrite Hh. nia.
  - assert (0 <= 2 ^ (e' - 1 + 149)) by (apply Z.pow_nonneg; lia). nia.
Qed.

(** *** Order and value of canonical numbers *)

Lemma canonical_bounds m e :
  canonical_mantissa F32.prec F32.emax m e = true ->
  -149 <= e /\ Zpos (digits2_pos m) <= 24 /\ (-149 < e -> Zpos (digits2_pos m) = 24).
Proof. intro H. apply canonical_iff in H. lia. Qed.

Lemma scaled_pos m e : -149 <= e -> 0 < scaled m e.
Proof.
  intro He. unfold scaled.
  assert (0 < 2 ^ (e + 149)) by (apply Z.pow_pos_nonneg; lia). nia.
Qed.

Lemma scaled_lt_exponent m1 e1 m2 e2 :
  canonical_mantissa F32.prec F32.emax m1 e1 = true ->
  canonical_mantissa F32.prec F32.emax m2 e2 = true ->
  e1 < e2 -> scaled m1 e1 < scaled m2 e2.
Proof.
  intros H1 H2 Hlt.
  destruct (canonical_bounds _ _ H1) as (He1 & Hd1 & _).
  destruct (canonical_bounds _ _ H2) as (He2 & _ & Hd2).
  pose proof (digits2_bounds m1) as [_ Hhi].
  pose proof (digits2_bounds m2) as [Hlo _].
  rewrite Hd2 in Hlo by lia.
  assert (Hm1 : Zpos m1 < 2 ^ 24).
  { apply Z.lt_le_trans with (1 := Hhi). apply Z.pow_le_mono_r; lia. }
  unfold scaled.
  assert (Hp1 : 0 < 2 ^ (e1 + 149)) by (apply Z.pow_pos_nonneg; lia).
  assert (Hstep : 2 * 2 ^ (e1 + 149) <= 2 ^ (e2 + 149)).
  { rewrite <- Z.pow_succ_r by lia. apply Z.pow_le_mono_r; lia. }
  change (2 ^ (24 - 1)) with 8388608 in Hlo. change (2 ^ 24) with 16777216 in Hm1. nia.
Qed.

Lemma scaled_lt_mantissa m1 m2 e :
  -149 <= e -> (m1 < m2)%positive -> scaled m1 e < scaled m2 e.
Proof.
  intros He Hlt. unfold scaled.
  assert (0 < 2 ^ (e + 149)) by (apply Z.pow_pos_nonneg; lia). nia.
Qed.

Lemma ltb_of_scaled m1 e1 m2 e2 :
  canonical_mantissa F32.prec F32.emax m1 e1 = true ->
  canonical_mantissa F32.prec F32.emax m2 e2 = true ->
  scaled m1 e1 < scaled m2 e2 ->
  F32.ltb (S754_finite false m1 e1) (S754_finite false m2 e2) = true.
Proof.
  intros H1 H2 Hlt. unfold F32.ltb, SFltb, SFcompare.
  destruct (canonical_bounds _ _ H1) as (He1 & _).
  destruct (Z.compare_spec e1 e2) as [Heq|Hl|Hg]; [subst e2| reflexivity |].
  - rewrite Pos.compare_cont_spec. cbn [Pos.switch_Eq].
    destruct (Pos.compare_spec m1 m2) as [Hm|Hm|Hm]; [subst; lia|reflexivity|].
    pose proof (scaled_lt_mantissa _ _ e1 He1 Hm). lia.
  - pose proof (scaled_lt_exponent _ _ _ _ H2 H1 Hg). lia.
Qed.

Lemma scaled_of_leb m1 e1 m2 e2 :
  canonical_mantissa F32.prec F32.emax m1 e1 = true ->
  canonical_mantissa F32.prec F32.emax m2 e2 = true ->
  F32.leb (S754_finite false m1 e1) (S754_finite false m2 e2) = true ->
  scaled m1 e1 <= scaled m2 e2.
Proof.
  intros H1 H2. unfold F32.leb, SFleb, SFcompare.
  destruct (canonical_bounds _ _ H1) as (He1 & _).
  destruct (Z.compare_spec e1 e2) as [Heq|Hl|Hg]; [subst e2| |discriminate].
  - rewrite Pos.compare_cont_spec. cbn [Pos.switch_Eq].
    destruct (Pos.compare_spec m1 m2) as [Hm|Hm|Hm]; [subst; lia| |discriminate].
    intros _. pose proof (scaled_lt_mantissa _ _ e1 He1 Hm). lia.
  - intros _. pose proof (scaled_lt_exponent _ _ _ _ H1 H2 Hl). lia.
Qed.

(** Among negative numbers the order is reversed. *)
Lemma scaled_of_leb_negative m1 e1 m2 e2 :
  canonical_mantissa F32.prec F32.emax m1 e1 = true ->
  canonical_mantissa F32.prec F32.emax m2 e2 = true ->
  F32.leb (S754_finite true m1 e1) (S754_finite true m2 e2) = true ->
  scaled m2 e2 <= scaled m1 e1.
Proof.
  intros H1 H2. unfold F32.leb, SFleb, SFcompare.
  destruct (canonical_bounds _ _ H1) as (He1 & _).
  destruct (Z.compare_spec e1 e2) as [Heq|Hl|Hg]; [subst e2|discriminate|].
  - rewrite Pos.compare_cont_spec. cbn [Pos.switch_Eq].
    destruct (Pos.compare_spec m1 m2) as [Hm|Hm|Hm]; cbn [CompOpp];
      [subst; lia|discriminate|].
    intros _. pose proof (scaled_lt_mantissa _ _ e1 He1 Hm). lia.
  - intros _. pose proof (scaled_lt_exponent _ _ _ _ H2 H1 Hg). lia.
Qed.

End F32Rounding.

(** ** Products, and one frame of counting down *)

Module F32Steps.
Import F32Value F32Rounding.
Local Open Scope Z_scope.

Lemma valid_canonical s m e :
  is_binary32 (S754_finite s m e) = true ->
  canonical_mantissa F32.prec F32.emax m e = true /\ e <= 104.
Proof.
  unfold is_binary32, valid_binary, bounded. intro H.
  apply andb_true_iff in H as [Hc He]. apply Z.leb_le in He.
  split; [assumption|exact He].
Qed.

Lemma canonical_valid s m e :
  canonical_mantissa F32.prec F32.emax m e = true -> e <= 104 ->
  is_binary32 (S754_finite s m e) = true.
Proof.
  intros Hc He. unfold is_binary32, valid_binary, bounded. rewrite Hc.
  apply Z.leb_le. exact He.
Qed.

Lemma scaled_aligned m e m' e' :
  -149 <= e' <= e -> Zpos m' = Zpos m * 2 ^ (e - e') -> scaled m' e' = scaled m e.
Proof.
  intros He Hm. unfold scaled. rewrite Hm, <- Z.mul_assoc, <- Z.pow_add_r by lia.
  do 2 f_equal. lia.
Qed.

(** Digits of a value below 1. *)
Lemma digits_below_one m e :
  -149 <= e -> scaled m e < 2 ^ 149 -> Zpos (digits2_pos m) + e <= 0.
Proof.
  intros He Hlt. pose proof (digits2_bounds m) as [Hlo _].
  destruct (Z.leb_spec (Zpos (digits2_pos m) + e) 0) as [|Hgt]; [assumption|exfalso].
  unfold scaled in Hlt.
  assert (H1 : 2 ^ (Zpos (digits2_pos m) - 1) * 2 ^ (e + 149) <= Zpos m * 2 ^ (e + 149)).
  { apply Z.mul_le_mono_nonneg_r; [apply Z.pow_nonneg; lia|assumption]. }
  rewrite <- Z.pow_add_r in H1 by lia.
  assert (H2 : 2 ^ 149 <= 2 ^ (Zpos (digits2_pos m) - 1 + (e + 149)))
    by (apply Z.pow_le_mono_r; lia).
  lia.
Qed.

(** Adding a negative number of magnitude at least [2^-24] to a positive
    number that is at most 1: the sum is a zero, negative, or a positive
    number at least [2^-25] below the first. *)
Lemma add_lowers mt et ms es :
  canonical_mantissa F32.prec F32.emax mt et = true ->
  canonical_mantissa F32.prec F32.emax ms es = true ->
  scaled mt et <= 2 ^ 149 -> 2 ^ 125 <= scaled ms es ->
  let r := F32.add (S754_finite false mt et) (S754_finite true ms es) in
  (exists s, r = S754_zero s) \/ r = S754_infinity true
  \/ (exists m e, r = S754_finite true m e /\
                  canonical_mantissa F32.prec F32.emax m e = true /\ e <= 104)
  \/ (exists m e, r = S754_finite false m e /\
                  canonical_mantissa F32.prec F32.emax m e = true /\ e <= 104 /\
                  scaled m e + 2 ^ 124 <= scaled mt et).
Proof.
  intros Hct Hcs Ht Hs.
  destruct (canonical_bounds _ _ Hct) as (Het & _).
  destruct (canonical_bounds _ _ Hcs) as (Hes & _).
  unfold F32.add, SFadd. cbn zeta.
  set (ez := Z.min et es).
  destruct (shl_align_spec mt et ez) as [_ HMt].
  destruct (shl_align_spec ms es ez) as [_ HMs].
  set (Mt := fst (shl_align mt et ez)) in *.
  set (Ms := fst (shl_align ms es ez)) in *.
  replace (Z.min et ez) with ez in HMt by lia.
  replace (Z.min es ez) with ez in HMs by lia.
  assert (Hez : -149 <= ez) by lia.
  pose proof (scaled_aligned mt et Mt ez ltac:(lia) HMt) as HVt.
  pose proof (scaled_aligned ms es Ms ez ltac:(lia) HMs) as HVs.
  cbn [cond_Zopp].
  destruct (Zpos Mt + - Zpos Ms) as [|d|d] eqn:HD; cbn [binary_normalize].
  - left. now exists false.
  - (* the sum is positive *)
    assert (HVd : scaled d ez = scaled mt et - scaled ms es).
    { rewrite <- HVt, <- HVs. unfold scaled. lia. }
    assert (Hdig : Zpos (digits2_pos d) + ez <= 0)
      by (apply digits_below_one; [assumption|lia]).
    pose proof (binary_round_spec false d ez Hez) as Hround. cbn zeta in Hround.
    set (e' := Z.max (Zpos (digits2_pos d) + ez - 24) (-149)) in *.
    assert (He' : -149 <= e' <= -24) by lia.
    destruct Hround as [Hzero|[[_ Hover]|(m2 & e2 & Hr & Hcan & He2 & Hfit & Hval)]];
      [left; now exists false|lia|].
    right. right. right. exists m2, e2. repeat split; try assumption.
    assert (Hhalf : 2 ^ (e' - 1 + 149) <= 2 ^ 124) by (apply Z.pow_le_mono_r; lia).
    lia.
  - (* the sum is negative *)
    pose proof (binary_round_spec true d ez Hez) as Hround. cbn zeta in Hround.
    destruct Hround as [Hzero|[[Hinf _]|(m2 & e2 & Hr & Hcan & He2 & Hfit & Hval)]].
    + left. now exists true.
    + right. now left.
    + right. right. left. exists m2, e2. repeat split; assumption.
Qed.


Lemma digits2_product mx my :
  Zpos (digits2_pos mx) + Zpos (digits2_pos my) - 1 <= Zpos (digits2_pos (mx * my)).
Proof.
  pose proof (digits2_bounds mx) as [Hx _]. pose proof (digits2_bounds my) as [Hy _].
  pose proof (digits2_bounds (mx * my)) as [_ Hxy].
  set (dx := Zpos (digits2_pos mx)) in *. set (dy := Zpos (digits2_pos my)) in *.
  set (d := Zpos (digits2_pos (mx * my))) in *.
  assert (Hdx : 1 <= dx) by (unfold dx; lia). assert (Hdy : 1 <= dy) by (unfold dy; lia).
  destruct (Z.leb_spec (dx + dy - 1) d) as [|Hgt]; [assumption|exfalso].
  assert (H1 : 2 ^ (dx - 1) * 2 ^ (dy - 1) <= Zpos mx * Zpos my).
  { apply Z.mul_le_mono_nonneg; try assumption; apply Z.pow_nonneg; lia. }
  rewrite <- Z.pow_add_r in H1 by lia.
  assert (H2 : 2 ^ d <= 2 ^ (dx - 1 + (dy - 1))) by (apply Z.pow_le_mono_r; lia).
  rewrite Pos2Z.inj_mul in Hxy. lia.
Qed.

(** The product of two binary32 numbers is a binary32 number. *)
Lemma mul_valid x y :
  is_binary32 x = true -> is_binary32 y = true -> is_binary32 (F32.mul x y) = true.
Proof.
  destruct x as [sx|sx| |sx mx ex]; destruct y as [sy|sy| |sy my ey];
    intros Hx Hy; try reflexivity.
  destruct (valid_canonical _ _ _ Hx) as [Hcx Hex].
  destruct (valid_canonical _ _ _ Hy) as [Hcy Hey].
  destruct (canonical_bounds _ _ Hcx) as (Hex0 & Hdx & Hnx).
  destruct (canonical_bounds _ _ Hcy) as (Hey0 & Hdy & Hny).
  pose proof (digits2_product mx my) as Hd.
  pose proof (digits2_bounds mx) as [_ _]. 
  assert (Hdx1 : 1 <= Zpos (digits2_pos mx)) by lia.
  assert (Hdy1 : 1 <= Zpos (digits2_pos my)) by lia.
  unfold F32.mul, SFmul.
  pose proof (binary_round_aux_positive (xorb sx sy) (mx * my) (ex + ey)) as Haux.
  cbn zeta in Haux.
  destruct Haux as [Hr|[[Hr _]|(m2 & e2 & Hr & Hcan & _ & Hfit & _)]].
  - destruct (Z.eq_dec ex (-149)) as [Hsx|Hsx]; destruct (Z.eq_dec ey (-149)) as [Hsy|Hsy];
      try specialize (Hnx ltac:(lia)); try specialize (Hny ltac:(lia)); lia.
  - rewrite Hr. reflexivity.
  - rewrite Hr. reflexivity.
  - rewrite Hr. now apply canonical_valid.
Qed.

Lemma positive_cases t :
  F32.leb F32.zero t = true -> F32.leb t F32.one = true -> F32.eqb t F32.zero = false ->
  exists m e, t = S754_finite false m e.
Proof.
  destruct t as [s|s| |s m e]; try destruct s; try discriminate; intros _ _ _.
  now exists m, e.
Qed.

Lemma zero_cases t : F32.eqb t F32.zero = true -> exists s, t = S754_zero s.
Proof.
  destruct t as [s|s| |s m e]; try destruct s; try discriminate; intros _; eauto.
Qed.

(** One frame of counting down: a binary32 timer in [(0, 1]] plus a
    binary32 step of at most [-2^-24], clamped to [[0, 1]], is a binary32
    number strictly below the timer: either 0, or at least [2^-25]
    below. *)
Lemma timer_step t s :
  is_binary32 t = true -> is_binary32 s = true ->
  F32.leb F32.zero t = true -> F32.leb t F32.one = true -> F32.eqb t F32.zero = false ->
  F32.leb s LeastStep = true ->
  let t' := FMath.Clamp (F32.add t s) F32.zero F32.one in
  is_binary32 t' = true /\ F32.ltb t' t = true /\
  (F32.eqb t' F32.zero = true \/ magnitude t' + 2 ^ 124 <= magnitude t).
Proof.
  intros Hvt Hvs H0 H1 Hnz Hs.
  destruct (positive_cases t H0 H1 Hnz) as (mt & et & ->).
  destruct (valid_canonical _ _ _ Hvt) as [Hct _].
  pose proof (scaled_of_leb mt et 8388608 (-23) Hct eq_refl H1) as Hle1.
  change (scaled 8388608 (-23)) with (2 ^ 149) in Hle1.
  destruct s as [ss|ss| |ss ms es]; try destruct ss; try discriminate Hs.
  - (* the step is minus infinity *)
    cbn zeta. repeat split; try reflexivity. now left.
  - destruct (valid_canonical _ _ _ Hvs) as [Hcs _].
    pose proof (scaled_of_leb_negative ms es 8388608 (-47) Hcs eq_refl Hs) as Hle2.
    change (scaled 8388608 (-47)) with (2 ^ 125) in Hle2.
    pose proof (add_lowers mt et ms es Hct Hcs Hle1 Hle2) as Hadd. cbn zeta in Hadd |- *.
    destruct Hadd as [[s0 Hr]|[Hr|[(m & e & Hr & Hc & He)|(m & e & Hr & Hc & He & Hval)]]];
      rewrite Hr.
    + destruct s0; repeat split; try reflexivity; now left.
    + repeat split; try reflexivity. now left.
    + repeat split; try reflexivity. now left.
    + assert (Hlt1 : F32.ltb (S754_finite false m e) F32.one = true).
      { apply (ltb_of_scaled m e 8388608 (-23) Hc eq_refl).
        change (scaled 8388608 (-23)) with (2 ^ 149). lia. }
      unfold FMath.Clamp. rewrite Hlt1.
      change (F32.ltb (S754_finite false m e) F32.zero) with false. cbn iota.
      split; [now apply canonical_valid|].
      split; [apply ltb_of_scaled; try assumption; lia|].
      right. exact Hval.
Qed.

End F32Steps.

(** ** Pressable-button pulse, focus and size *)

Module ButtonFacts.

Import Button F32Value FocusRun.

(** C3: while a pulse is in progress ([IsPulsing] holds) [BeginPulse]
    returns false and leaves the actor, so all pulse state, untouched;
    when it starts a pulse (a pointer is given and none is in progress)
    it returns true with the pulse timer and the pulse-fade timer at 0. *)
Theorem BeginPulse_guard IsPulsing h Pointer a :
  (IsPulsing a = true -> BeginPulse IsPulsing h Pointer a = (a, false)) /\
  (forall P, IsPulsing a = false -> Pointer = Some P ->
             snd (BeginPulse IsPulsing h Pointer a) = true /\
             PulseTimer (fst (BeginPulse IsPulsing h Pointer a)) = F32.zero /\
             PulseFadeTimer (fst (BeginPulse IsPulsing h Pointer a)) = F32.zero).
Proof.
  unfold BeginPulse. split.
  - intros ->. reflexivity.
  - intros P -> ->. simpl. repeat split.
Qed.

Lemma BeginPulse_guard_example :
  BeginPulse Examples.IsPulsingOf (Examples.ButtonHost Pressed)
    (Some Examples.RightHandPointer) Examples.RisingButton
  = (Examples.RisingButton, false)
  /\ BeginPulse Examples.IsPulsingOf (Examples.ButtonHost Pressed)
       (Some Examples.RightHandPointer) Examples.FadingButton
     = (Examples.FadingButton, false)
  /\ (snd (BeginPulse Examples.IsPulsingOf (Examples.ButtonHost Pressed)
             (Some Examples.RightHandPointer) Examples.RestingButton) = true /\
      PulseTimer (fst (BeginPulse Examples.IsPulsingOf (Examples.ButtonHost Pressed)
                         (Some Examples.RightHandPointer) Examples.RestingButton)) = F32.zero /\
      PulseFadeTimer (fst (BeginPulse Examples.IsPulsingOf (Examples.ButtonHost Pressed)
                             (Some Examples.RightHandPointer) Examples.RestingButton))
      = F32.zero).
Proof.
  split; [|split].
  - apply (proj1 (BeginPulse_guard Examples.IsPulsingOf (Examples.ButtonHost Pressed)
                    (Some Examples.RightHandPointer) Examples.RisingButton)).
    reflexivity.
  - apply (proj1 (BeginPulse_guard Examples.IsPulsingOf (Examples.ButtonHost Pressed)
                    (Some Examples.RightHandPointer) Examples.FadingButton)).
    reflexivity.
  - apply (proj2 (BeginPulse_guard Examples.IsPulsingOf (Examples.ButtonHost Pressed)
                    (Some Examples.RightHandPointer) Examples.RestingButton)
             Examples.RightHandPointer); reflexivity.
Defined.

(** With [IsPulsing] as the spec describes it, a pulse that
    [AnimatePulse] still animates, rising or fading, is in progress. *)
Lemma animated_pulse_is_pulsing h DeltaTime a :
  snd (AnimatePulse h DeltaTime a) = false -> Examples.IsPulsingOf a = true.
Proof.
  unfold AnimatePulse, Examples.IsPulsingOf.
  destruct (F32.gtb (PulseTimer a) F32.one) eqn:Hrise.
  - intros _. now apply F32Facts.above_one_is_nonnegative.
  - destruct (F32.geb (PulseTimer a) F32.zero); [reflexivity|discriminate].
Qed.

Lemma RateDuration_positive T : F32.leb (RateDuration T) F32.zero = false.
Proof.
  unfold RateDuration. destruct (F32.leb T F32.zero) eqn:HT; [reflexivity|exact HT].
Qed.

(** C8: in a frame of the rise the pulse timer advances by
    [(1 / d) * DeltaTime], [d] being [PulseTime], and in a frame of the
    fade the pulse-fade timer advances likewise with [PulseFadeTime];
    a configured duration that is zero or negative is replaced by 1, so
    the divisor is never zero or negative. *)
Theorem pulse_timers_advance_at_rate h DeltaTime a :
  (F32.gtb (PulseTimer a) F32.one = false -> F32.geb (PulseTimer a) F32.zero = true ->
   PulseTimer (fst (AnimatePulse h DeltaTime a))
   = F32.add (PulseTimer a)
       (F32.mul (F32.div F32.one (RateDuration (PulseTime (Visuals a)))) DeltaTime)) /\
  (F32.gtb (PulseTimer a) F32.one = true -> F32.gtb (PulseFadeTimer a) F32.one = false ->
   PulseFadeTimer (fst (AnimatePulse h DeltaTime a))
   = F32.add (PulseFadeTimer a)
       (F32.mul (F32.div F32.one (RateDuration (PulseFadeTime (Visuals a)))) DeltaTime)) /\
  (forall T, F32.leb T F32.zero = true -> RateDuration T = F32.one) /\
  (forall T, F32.leb T F32.zero = false -> RateDuration T = T) /\
  (forall T, F32.leb (RateDuration T) F32.zero = false).
Proof.
  unfold AnimatePulse. repeat split.
  - intros -> ->. cbn [fst].
    match goal with |- context [if ?b then _ else _] => destruct b end; reflexivity.
  - intros -> ->. reflexivity.
  - intros T HT. unfold RateDuration. now rewrite HT.
  - intros T HT. unfold RateDuration. now rewrite HT.
  - exact RateDuration_positive.
Qed.

Lemma pulse_timers_advance_example :
  PulseTimer (fst (AnimatePulse (Examples.ButtonHost Pressed) F32.half Examples.RisingButton))
  = F32.add (PulseTimer Examples.RisingButton)
      (F32.mul (F32.div F32.one (RateDuration (PulseTime (Visuals Examples.RisingButton))))
         F32.half)
  /\ PulseFadeTimer
       (fst (AnimatePulse (Examples.ButtonHost Pressed) F32.half Examples.FadingButton))
     = F32.add (PulseFadeTimer Examples.FadingButton)
         (F32.mul
            (F32.div F32.one (RateDuration (PulseFadeTime (Visuals Examples.FadingButton))))
            F32.half)
  /\ RateDuration (PulseFadeTime (Visuals Examples.FadingButton)) = F32.one.
Proof.
  split; [|split].
  - apply (proj1 (pulse_timers_advance_at_rate (Examples.ButtonHost Pressed) F32.half
                    Examples.RisingButton)); reflexivity.
  - apply (proj1 (proj2 (pulse_timers_advance_at_rate (Examples.ButtonHost Pressed) F32.half
                           Examples.FadingButton))); reflexivity.
  - apply (proj1 (proj2 (proj2 (pulse_timers_advance_at_rate (Examples.ButtonHost Pressed)
                                  F32.half Examples.FadingButton)))); reflexivity.
Defined.

(** C10: [SetSize(S)] is [SetMillimeterSize(10 * S)], on the stored size
    and on every call that rebuilds the visuals; either setter leaves the
    actor as it is, visuals not rebuilt, when the new millimeter size
    equals the stored one. *)
Theorem SetSize_is_SetMillimeterSize GetSize h S a :
  SetSize GetSize h S a = SetMillimeterSize GetSize h (FVectorOps.scale S F32.ten) a /\
  (FVectorOps.neb (MillimeterSize a) (FVectorOps.scale S F32.ten) = false ->
   SetSize GetSize h S a = a) /\
  (forall M, FVectorOps.neb (MillimeterSize a) M = false ->
             SetMillimeterSize GetSize h M a = a).
Proof.
  unfold SetSize, SetMillimeterSize. repeat split.
  - intros ->. reflexivity.
  - intros M ->. reflexivity.
Qed.

Lemma SetSize_unchanged_example :
  SetSize Examples.GetSizeOf (Examples.ButtonHost Default)
    (mkFVector (F32.div (F32.of_int 16) F32.ten) (F32.div (F32.of_int 32) F32.ten)
       (F32.div (F32.of_int 32) F32.ten))
    Examples.RestingButton
  = Examples.RestingButton
  /\ SetMillimeterSize Examples.GetSizeOf (Examples.ButtonHost Default)
       (MillimeterSize Examples.RestingButton) Examples.RestingButton
     = Examples.RestingButton.
Proof.
  split.
  - apply (proj1 (proj2 (SetSize_is_SetMillimeterSize Examples.GetSizeOf
                           (Examples.ButtonHost Default) _ Examples.RestingButton))).
    reflexivity.
  - apply (proj2 (proj2 (SetSize_is_SetMillimeterSize Examples.GetSizeOf
                           (Examples.ButtonHost Default) FVectorOps.ZeroVector
                           Examples.RestingButton))).
    reflexivity.
Defined.

Lemma FocusTimer_AnimateFocus GetSize h DeltaTime a :
  FocusTimer (fst (AnimateFocus GetSize h DeltaTime a))
  = FMath.Clamp (FocusTarget h DeltaTime a) F32.zero F32.one.
Proof. reflexivity. Qed.

Lemma Visuals_AnimateFocus GetSize h DeltaTime a :
  Visuals (fst (AnimateFocus GetSize h DeltaTime a)) = Visuals a.
Proof. reflexivity. Qed.

Lemma AnimateFocus_complete GetSize h DeltaTime a :
  snd (AnimateFocus GetSize h DeltaTime a)
  = F32.eqb (FocusTimer (fst (AnimateFocus GetSize h DeltaTime a))) F32.zero.
Proof. reflexivity. Qed.

(** Unfocused frames that do not move the timer never will. *)
Lemma stalled_forever DeltaTime a n :
  FocusTimer
    (fst (AnimateFocus Examples.GetSizeOf (Examples.ButtonHost Default) DeltaTime a))
  = FocusTimer a ->
  FocusTimer (Examples.UnfocusedFrames n DeltaTime a) = FocusTimer a /\
  Visuals (Examples.UnfocusedFrames n DeltaTime a) = Visuals a.
Proof.
  intro Hstall. induction n as [|n [IHt IHv]]; [split; reflexivity|].
  cbn [Examples.UnfocusedFrames]. split.
  - rewrite FocusTimer_AnimateFocus in *.
    unfold FocusTarget, FocusSpeed in *. rewrite IHt, IHv. exact Hstall.
  - rewrite Visuals_AnimateFocus. assumption.
Qed.

(** A timer at 0 plus a step that is zero or negative is clamped to 0. *)
Lemma Clamp_at_rest timer delta :
  F32.eqb timer F32.zero = true ->
  F32.leb delta F32.zero = true ->
  F32.eqb (FMath.Clamp (F32.add timer delta) F32.zero F32.one) F32.zero = true.
Proof.
  destruct timer as [s|s| |s m e]; try destruct s; try discriminate;
    destruct delta as [s'|s'| |s' m' e']; try destruct s'; try discriminate;
    intros _ _; reflexivity.
Qed.

(** C4, as stated, fails.  Half a second of focus puts the timer at 0.5;
    an unfocused frame with [DeltaTime = 0] then leaves it at 0.5: it did
    not decrease and the animation is not complete.  And from a timer of
    1, unfocused frames of [2^-30] seconds each leave it at 1 however many
    of them elapse, so no amount of unfocused time brings it to 0. *)
Lemma focus_timer_can_stall :
  (FocusTimer (Examples.FocusedFor F32.half) = F32.half /\
   FocusTimer (Examples.UnfocusedFrames 1 F32.zero (Examples.FocusedFor F32.half)) = F32.half /\
   snd (AnimateFocus Examples.GetSizeOf (Examples.ButtonHost Default) F32.zero
          (Examples.FocusedFor F32.half)) = false)
  /\
  (FocusTimer (Examples.FocusedFor F32.one) = F32.one /\
   F32.ltb F32.zero Examples.Nanosecond = true /\
   forall n,
     FocusTimer (Examples.UnfocusedFrames n Examples.Nanosecond (Examples.FocusedFor F32.one))
     = F32.one).
Proof.
  split; [repeat split|split; [reflexivity|split; [reflexivity|]]].
  intro n.
  exact (proj1 (stalled_forever Examples.Nanosecond (Examples.FocusedFor F32.one) n
                  eq_refl)).
Qed.

Lemma FocusAfter_shift GetSize frames n a :
  FocusAfter GetSize frames (S n) a
  = FocusAfter GetSize (fun k => frames (S k)) n
      (fst (AnimateFocus GetSize (fst (frames O)) (snd (frames O)) a)).
Proof.
  induction n as [|n IH]; [reflexivity|].
  change (FocusAfter GetSize frames (S (S n)) a)
    with (fst (AnimateFocus GetSize (fst (frames (S n))) (snd (frames (S n)))
                 (FocusAfter GetSize frames (S n) a))).
  rewrite IH. reflexivity.
Qed.

Lemma Visuals_FocusAfter GetSize frames n a :
  Visuals (FocusAfter GetSize frames n a) = Visuals a.
Proof. induction n as [|n IH]; [reflexivity|exact IH]. Qed.

Lemma FocusSpeed_valid h a :
  is_binary32 (IconFocusSpeed (Visuals a)) = true -> is_binary32 (FocusSpeed h a) = true.
Proof.
  intro Hv. unfold FocusSpeed. cbn zeta.
  apply F32Steps.mul_valid; [assumption|].
  destruct (state_eqb (ButtonState h) Focused); reflexivity.
Qed.

Lemma below_LeastStep s : F32.leb s LeastStep = true -> F32.leb s F32.zero = true.
Proof. destruct s as [x|x| |x m e]; try destruct x; try discriminate; reflexivity. Qed.

(** Unfocused frames whose step is at most [-2^-24] lower a timer of
    magnitude at most [k * 2^-25] strictly, frame after frame, until it is
    0, which it is after [k] frames at the latest. *)
Lemma focus_timer_runs_down GetSize k : forall frames a,
  is_binary32 (FocusTimer a) = true ->
  is_binary32 (IconFocusSpeed (Visuals a)) = true ->
  F32.leb F32.zero (FocusTimer a) = true ->
  F32.leb (FocusTimer a) F32.one = true ->
  (magnitude (FocusTimer a) <= Z.of_nat k * 2 ^ 124)%Z ->
  (forall n, is_binary32 (snd (frames n)) = true /\
             F32.leb (F32.mul (snd (frames n)) (FocusSpeed (fst (frames n)) a)) LeastStep
             = true) ->
  exists n, (n <= k)%nat /\
    (forall j, (j < n)%nat ->
       F32.eqb (FocusTimer (FocusAfter GetSize frames j a)) F32.zero = false /\
       F32.ltb (FocusTimer (FocusAfter GetSize frames (S j) a))
         (FocusTimer (FocusAfter GetSize frames j a)) = true) /\
    F32.eqb (FocusTimer (FocusAfter GetSize frames n a)) F32.zero = true.
Proof.
  induction k as [|k IH]; intros frames a Hvt Hvi H0 H1 Hmag Hframes;
    destruct (F32.eqb (FocusTimer a) F32.zero) eqn:Hz.
  - exists O. split; [lia|]. split; [intros j Hj; lia|exact Hz].
  - destruct (F32Steps.positive_cases _ H0 H1 Hz) as (m & e & Ht).
    rewrite Ht in Hmag, Hvt. cbn [magnitude] in Hmag.
    destruct (F32Steps.valid_canonical _ _ _ Hvt) as [Hc _].
    destruct (F32Rounding.canonical_bounds _ _ Hc) as (He & _).
    pose proof (F32Rounding.scaled_pos m e He). lia.
  - exists O. split; [lia|]. split; [intros j Hj; lia|exact Hz].
  - destruct (Hframes O) as [Hvd Hstep].
    pose proof (F32Steps.timer_step (FocusTimer a)
                  (F32.mul (snd (frames O)) (FocusSpeed (fst (frames O)) a))
                  Hvt (F32Steps.mul_valid _ _ Hvd (FocusSpeed_valid _ _ Hvi))
                  H0 H1 Hz Hstep) as Hnext.
    cbn zeta in Hnext. destruct Hnext as (Hvt' & Hlt & Hdrop).
    set (a' := fst (AnimateFocus GetSize (fst (frames O)) (snd (frames O)) a)).
    assert (Ht' : FocusTimer a'
                  = FMath.Clamp (F32.add (FocusTimer a)
                                   (F32.mul (snd (frames O)) (FocusSpeed (fst (frames O)) a)))
                      F32.zero F32.one) by reflexivity.
    rewrite <- Ht' in Hvt', Hlt, Hdrop.
    destruct (F32Facts.Clamp_unit_range
                (F32.add (FocusTimer a)
                   (F32.mul (snd (frames O)) (FocusSpeed (fst (frames O)) a))))
      as [Hlo Hhi].
    rewrite <- Ht' in Hlo, Hhi.
    assert (Hmag' : (magnitude (FocusTimer a') <= Z.of_nat k * 2 ^ 124)%Z).
    { destruct Hdrop as [Hzero|Hdrop]; [|lia].
      destruct (F32Steps.zero_cases _ Hzero) as [s ->]. cbn [magnitude].
      apply Z.mul_nonneg_nonneg; [lia|apply Z.pow_nonneg; lia]. }
    assert (Hframes' : forall n,
               is_binary32 (snd (frames (S n))) = true /\
               F32.leb (F32.mul (snd (frames (S n))) (FocusSpeed (fst (frames (S n))) a'))
                 LeastStep = true)
      by (intro n; exact (Hframes (S n))).
    destruct (IH (fun n => frames (S n)) a' Hvt' Hvi Hlo Hhi Hmag' Hframes')
      as (n & Hn & Hdown & Hend).
    exists (S n). split; [lia|]. split.
    + intros [|j] Hj.
      * split; [exact Hz|exact Hlt].
      * rewrite (FocusAfter_shift GetSize frames (S j)), (FocusAfter_shift GetSize frames j).
        apply Hdown. lia.
    + rewrite FocusAfter_shift. exact Hend.
Qed.

(** Once 0, the timer stays 0 over frames whose step is zero or negative. *)
Lemma focus_timer_rests GetSize frames a n :
  (forall n, F32.leb (F32.mul (snd (frames n)) (FocusSpeed (fst (frames n)) a)) F32.zero
             = true) ->
  F32.eqb (FocusTimer (FocusAfter GetSize frames n a)) F32.zero = true ->
  forall k, (n <= k)%nat ->
    F32.eqb (FocusTimer (FocusAfter GetSize frames k a)) F32.zero = true.
Proof.
  intros Hframes Hn k Hk. induction Hk as [|k Hk IH]; [exact Hn|].
  cbn [FocusAfter]. rewrite FocusTimer_AnimateFocus. unfold FocusTarget.
  apply Clamp_at_rest; [exact IH|].
  assert (Hspeed : FocusSpeed (fst (frames k)) (FocusAfter GetSize frames k a)
                   = FocusSpeed (fst (frames k)) a)
    by (unfold FocusSpeed; now rewrite Visuals_FocusAfter).
  pose proof (Hframes k) as Hstep. rewrite <- Hspeed in Hstep. exact Hstep.
Qed.

Lemma magnitude_unit t :
  is_binary32 t = true -> F32.leb F32.zero t = true -> F32.leb t F32.one = true ->
  (magnitude t <= 2 ^ 149)%Z.
Proof.
  intros Hv H0 H1. destruct (F32.eqb t F32.zero) eqn:Hz.
  - destruct (F32Steps.zero_cases _ Hz) as [s ->]. cbn [magnitude]. lia.
  - destruct (F32Steps.positive_cases _ H0 H1 Hz) as (m & e & ->).
    destruct (F32Steps.valid_canonical _ _ _ Hv) as [Hc _].
    exact (F32Rounding.scaled_of_leb m e 8388608 (-23) Hc eq_refl H1).
Qed.

(** C4 (amended): after every call of a sequence of [AnimateFocus] calls
    the focus timer lies in [[0, 1]], and the call reports the animation
    complete exactly when the timer equals 0.  Each call sets the timer
    to [FocusTimer + DeltaTime * FocusSpeed] clamped to [[0, 1]], where
    [FocusSpeed] is [-IconFocusSpeed] while unfocused: the timer is
    exactly 0 once that value is negative and the value itself when it
    lies in [[0, 1)], so a frame completes the animation as soon as the
    value is zero or negative; and a timer that equals 0 stays there,
    complete, over every frame whose step [DeltaTime * FocusSpeed] is
    zero or negative.  Over an unending run of unfocused frames, from a
    binary32 timer in [[0, 1]], with [DeltaTime] and [IconFocusSpeed]
    binary32 numbers whose step [DeltaTime * -IconFocusSpeed] is at most
    [-2^-24] in every frame, the timer decreases strictly in each frame
    until it equals 0, which it does after at most [2^25] frames, and
    from then on it equals 0 and every call reports the animation
    complete. *)
Theorem focus_timer_clamped GetSize frames a :
  Forall
    (fun r =>
       F32.leb F32.zero (FocusTimer (fst r)) = true /\
       F32.leb (FocusTimer (fst r)) F32.one = true /\
       snd r = F32.eqb (FocusTimer (fst r)) F32.zero)
    (FocusTrajectory GetSize frames a)
  /\
  (forall h DeltaTime b,
    FocusTimer (fst (AnimateFocus GetSize h DeltaTime b))
    = FMath.Clamp (FocusTarget h DeltaTime b) F32.zero F32.one /\
    FocusTarget h DeltaTime b = F32.add (FocusTimer b) (F32.mul DeltaTime (FocusSpeed h b)) /\
    (state_eqb (ButtonState h) Focused = false ->
     FocusSpeed h b = F32.mul (IconFocusSpeed (Visuals b)) F32.minus_one) /\
    (F32.ltb (FocusTarget h DeltaTime b) F32.zero = true ->
     FocusTimer (fst (AnimateFocus GetSize h DeltaTime b)) = F32.zero /\
     snd (AnimateFocus GetSize h DeltaTime b) = true) /\
    (F32.eqb (FocusTarget h DeltaTime b) F32.zero = true ->
     snd (AnimateFocus GetSize h DeltaTime b) = true) /\
    (F32.ltb (FocusTarget h DeltaTime b) F32.zero = false ->
     F32.ltb (FocusTarget h DeltaTime b) F32.one = true ->
     FocusTimer (fst (AnimateFocus GetSize h DeltaTime b)) = FocusTarget h DeltaTime b) /\
    (F32.eqb (FocusTimer b) F32.zero = true ->
     F32.leb (F32.mul DeltaTime (FocusSpeed h b)) F32.zero = true ->
     snd (AnimateFocus GetSize h DeltaTime b) = true))
  /\
  (forall (run : nat -> Frame) b,
     is_binary32 (FocusTimer b) = true ->
     F32.leb F32.zero (FocusTimer b) = true ->
     F32.leb (FocusTimer b) F32.one = true ->
     is_binary32 (IconFocusSpeed (Visuals b)) = true ->
     (forall n,
        state_eqb (ButtonState (fst (run n))) Focused = false /\
        is_binary32 (snd (run n)) = true /\
        F32.leb (F32.mul (snd (run n)) (F32.mul (IconFocusSpeed (Visuals b)) F32.minus_one))
          LeastStep = true) ->
     exists n,
       (Z.of_nat n <= 2 ^ 25)%Z /\
       (forall j, (j < n)%nat ->
          F32.eqb (FocusTimer (FocusAfter GetSize run j b)) F32.zero = false /\
          F32.ltb (FocusTimer (FocusAfter GetSize run (S j) b))
            (FocusTimer (FocusAfter GetSize run j b)) = true) /\
       (forall k, (n <= k)%nat ->
          F32.eqb (FocusTimer (FocusAfter GetSize run k b)) F32.zero = true /\
          snd (AnimateFocus GetSize (fst (run k)) (snd (run k)) (FocusAfter GetSize run k b))
          = true)).
Proof.
  split; [|split].
  - revert a. induction frames as [|[h DeltaTime] rest IH]; intro a; simpl; constructor.
    + rewrite FocusTimer_AnimateFocus.
      destruct (F32Facts.Clamp_unit_range (FocusTarget h DeltaTime a)) as [Hlo Hhi].
      repeat split; assumption.
    + apply IH.
  - intros h DeltaTime b.
    rewrite AnimateFocus_complete, FocusTimer_AnimateFocus.
    split; [reflexivity|]. split; [reflexivity|]. split; [|split; [|split; [|split]]].
    + unfold FocusSpeed. intros ->. reflexivity.
    + intro Hneg. unfold FMath.Clamp. rewrite Hneg. split; reflexivity.
    + intro Hzero. destruct (F32Facts.eqb_zero_cases _ Hzero) as [H0 H1].
      unfold FMath.Clamp. now rewrite H0, H1.
    + intros H0 H1. unfold FMath.Clamp. now rewrite H0, H1.
    + intros Hrest Hstep. unfold FocusTarget. now apply Clamp_at_rest.
  - intros run b Hvt H0 H1 Hvi Hrun.
    assert (Hsteps : forall n,
               is_binary32 (snd (run n)) = true /\
               F32.leb (F32.mul (snd (run n)) (FocusSpeed (fst (run n)) b)) LeastStep = true).
    { intro n. destruct (Hrun n) as (Hu & Hd & Hs). split; [exact Hd|].
      unfold FocusSpeed. rewrite Hu. exact Hs. }
    assert (Hmag : (magnitude (FocusTimer b) <= Z.of_nat (Z.to_nat (2 ^ 25)) * 2 ^ 124)%Z).
    { rewrite Z2Nat.id by lia. now apply magnitude_unit. }
    destruct (focus_timer_runs_down GetSize (Z.to_nat (2 ^ 25)) run b Hvt Hvi H0 H1 Hmag Hsteps)
      as (n & Hn & Hdown & Hend).
    exists n. split; [|split; [exact Hdown|]].
    + apply Nat2Z.inj_le in Hn. rewrite Z2Nat.id in Hn by lia. exact Hn.
    + pose proof (focus_timer_rests GetSize run b n
                    (fun i => below_LeastStep _ (proj2 (Hsteps i))) Hend) as Hrest.
      intros k Hk. split; [apply Hrest; exact Hk|].
      rewrite AnimateFocus_complete.
      exact (Hrest (S k) (Nat.le_trans _ _ _ Hk (Nat.le_succ_diag_r k))).
Qed.

Lemma focus_timer_clamped_example :
  Forall
    (fun r =>
       F32.leb F32.zero (FocusTimer (fst r)) = true /\
       F32.leb (FocusTimer (fst r)) F32.one = true /\
       snd r = F32.eqb (FocusTimer (fst r)) F32.zero)
    (FocusTrajectory Examples.GetSizeOf
       [(Examples.ButtonHost Focused, F32.half); (Examples.ButtonHost Default, F32.one)]
       Examples.RestingButton)
  /\ (FocusTimer
        (fst (AnimateFocus Examples.GetSizeOf (Examples.ButtonHost Default) F32.one
                (Examples.FocusedFor F32.half)))
      = F32.zero
      /\ snd (AnimateFocus Examples.GetSizeOf (Examples.ButtonHost Default) F32.one
                (Examples.FocusedFor F32.half)) = true)
  /\ (exists n,
        (Z.of_nat n <= 2 ^ 25)%Z /\
        (forall j, (j < n)%nat ->
           F32.eqb
             (FocusTimer
                (FocusAfter Examples.GetSizeOf (MoreExamples.UnfocusedRun MoreExamples.FrameTime)
                   j (Examples.FocusedFor F32.one)))
             F32.zero = false /\
           F32.ltb
             (FocusTimer
                (FocusAfter Examples.GetSizeOf (MoreExamples.UnfocusedRun MoreExamples.FrameTime)
                   (S j) (Examples.FocusedFor F32.one)))
             (FocusTimer
                (FocusAfter Examples.GetSizeOf (MoreExamples.UnfocusedRun MoreExamples.FrameTime)
                   j (Examples.FocusedFor F32.one))) = true) /\
        (forall k, (n <= k)%nat ->
           F32.eqb
             (FocusTimer
                (FocusAfter Examples.GetSizeOf (MoreExamples.UnfocusedRun MoreExamples.FrameTime)
                   k (Examples.FocusedFor F32.one)))
             F32.zero = true /\
           snd (AnimateFocus Examples.GetSizeOf
                  (fst (MoreExamples.UnfocusedRun MoreExamples.FrameTime k))
                  (snd (MoreExamples.UnfocusedRun MoreExamples.FrameTime k))
                  (FocusAfter Examples.GetSizeOf
                     (MoreExamples.UnfocusedRun MoreExamples.FrameTime) k
                     (Examples.FocusedFor F32.one)))
           = true)).
Proof.
  pose proof (focus_timer_clamped Examples.GetSizeOf
                [(Examples.ButtonHost Focused, F32.half); (Examples.ButtonHost Default, F32.one)]
                Examples.RestingButton) as (Hrange & Hframe & Hrun).
  split; [exact Hrange|]. split.
  - apply (Hframe (Examples.ButtonHost Default) F32.one (Examples.FocusedFor F32.half)).
    reflexivity.
  - apply (Hrun (MoreExamples.UnfocusedRun MoreExamples.FrameTime)
             (Examples.FocusedFor F32.one)).
    + reflexivity.
    + reflexivity.
    + reflexivity.
    + reflexivity.
    + intro n. split; [reflexivity|]. split; reflexivity.
Defined.

End ButtonFacts.

(** ** Further properties of the grab-pointer bookkeeping *)

Module GrabbableCoverage.

Import Grabbable Vocabulary GrabbableRest GrabbableFacts.

Lemma RemoveAll_made {A} (pred : A -> bool * list HostCall) (l : list A) :
  snd (fst (RemoveAll pred l)) = flat_map (fun x => snd (pred x)) l.
Proof.
  induction l as [|x rest IH]; simpl; [reflexivity|].
  destruct (pred x) as [remove made]. simpl.
  destruct (RemoveAll pred rest) as [[kept later] n]. simpl in *.
  destruct remove; simpl; congruence.
Qed.

Lemma EndNotifications_made p l :
  flat_map
    (fun data =>
       snd (if pointer_eqb (Pointer data) (Some p)
            then (true, [SetHoverLocked p false; BroadcastOnEndGrab data])
            else (false, [])))
    l
  = EndNotifications p l.
Proof.
  unfold EndNotifications, held_by.
  induction l as [|d l IH]; simpl; [reflexivity|].
  destruct (pointer_eqb (Pointer d) (Some p)); simpl; now rewrite IH.
Qed.

(** [GraspEnded] in one piece: the records of [p] go, their notifications
    are logged, the tick is updated on the result, the parent class is called. *)
Lemma GraspEnded_result p c :
  GraspEnded p c
  = call (SuperGraspEnded p)
      (UpdateComponentTickEnabled
         (mkUGrabbableComponent
            (filter (fun data => negb (held_by p data)) (GrabPointers c))
            (bTickOnlyWhileGrabbed c)
            (Calls c ++ EndNotifications p (GrabPointers c)))).
Proof.
  unfold GraspEnded.
  match goal with |- context [RemoveAll ?f ?l] =>
    pose proof (RemoveAll_kept f l) as Hkept;
    pose proof (RemoveAll_made f l) as Hmade;
    destruct (RemoveAll f l) as [[kept made] n]
  end.
  simpl in Hkept, Hmade. rewrite EndNotifications_made in Hmade. subst kept made.
  do 3 f_equal. apply filter_ext. intro d. unfold held_by.
  now destruct (pointer_eqb (Pointer d) (Some p)).
Qed.

Lemma Calls_UpdateComponentTickEnabled c :
  Calls (UpdateComponentTickEnabled c) = Calls c ++ TickUpdate c.
Proof.
  unfold UpdateComponentTickEnabled, TickUpdate.
  destruct (bTickOnlyWhileGrabbed c); simpl; [reflexivity|now rewrite app_nil_r].
Qed.

Lemma flag_UpdateComponentTickEnabled c :
  bTickOnlyWhileGrabbed (UpdateComponentTickEnabled c) = bTickOnlyWhileGrabbed c.
Proof.
  unfold UpdateComponentTickEnabled.
  destruct (bTickOnlyWhileGrabbed c) eqn:Hflag; simpl; congruence.
Qed.

Lemma TickUpdate_ext c c' :
  bTickOnlyWhileGrabbed c = bTickOnlyWhileGrabbed c' -> GrabPointers c = GrabPointers c' ->
  TickUpdate c = TickUpdate c'.
Proof. unfold TickUpdate, Num. now intros -> ->. Qed.

Lemma Calls_GraspEnded p c :
  Calls (GraspEnded p c)
  = Calls c ++ EndNotifications p (GrabPointers c) ++ TickUpdate (GraspEnded p c)
      ++ [SuperGraspEnded p].
Proof.
  rewrite (TickUpdate_ext (GraspEnded p c)
             (mkUGrabbableComponent
                (filter (fun data => negb (held_by p data)) (GrabPointers c))
                (bTickOnlyWhileGrabbed c)
                (Calls c ++ EndNotifications p (GrabPointers c)))).
  - rewrite GraspEnded_result at 1. simpl.
    rewrite Calls_UpdateComponentTickEnabled. simpl. now rewrite <- !app_assoc.
  - rewrite GraspEnded_result. simpl. now rewrite flag_UpdateComponentTickEnabled.
  - rewrite GraspEnded_result. simpl. now rewrite GrabPointers_UpdateComponentTickEnabled.
Qed.

Lemma Calls_GraspStarted E h p c :
  Calls (GraspStarted E h p c)
  = Calls c ++ [SuperGraspStarted p; SetHoverLocked p true;
                BroadcastOnBeginGrab (GraspRecord E h p)]
      ++ TickUpdate (GraspStarted E h p c).
Proof.
  rewrite (TickUpdate_ext (GraspStarted E h p c)
             (mkUGrabbableComponent (GrabPointers c ++ [GraspRecord E h p])
                (bTickOnlyWhileGrabbed c) [])).
  - unfold GraspStarted. rewrite Calls_UpdateComponentTickEnabled. simpl.
    rewrite <- !app_assoc. reflexivity.
  - unfold GraspStarted. now rewrite flag_UpdateComponentTickEnabled.
  - now rewrite GrabPointers_GraspStarted.
Qed.

Lemma flag_GraspStarted E h p c :
  bTickOnlyWhileGrabbed (GraspStarted E h p c) = bTickOnlyWhileGrabbed c.
Proof. unfold GraspStarted. now rewrite flag_UpdateComponentTickEnabled. Qed.

Lemma flag_GraspEnded p c :
  bTickOnlyWhileGrabbed (GraspEnded p c) = bTickOnlyWhileGrabbed c.
Proof. rewrite GraspEnded_result. simpl. now rewrite flag_UpdateComponentTickEnabled. Qed.

Lemma held_by_absent p l :
  ~ In (Some p) (map Pointer l) -> filter (held_by p) l = [].
Proof.
  induction l as [|d l IH]; simpl; intro Hnotin; [reflexivity|].
  unfold held_by at 1. destruct (pointer_eqb (Pointer d) (Some p)) eqn:Hd.
  - apply pointer_eqb_eq in Hd. tauto.
  - apply IH. tauto.
Qed.

Lemma not_held_by_absent p l :
  ~ In (Some p) (map Pointer l) -> filter (fun data => negb (held_by p data)) l = l.
Proof.
  induction l as [|d l IH]; simpl; intro Hnotin; [reflexivity|].
  unfold held_by at 1. destruct (pointer_eqb (Pointer d) (Some p)) eqn:Hd; simpl.
  - apply pointer_eqb_eq in Hd. tauto.
  - f_equal. apply IH. tauto.
Qed.

Lemma GrabPointers_GraspEnded_held p c :
  GrabPointers (GraspEnded p c)
  = filter (fun data => negb (held_by p data)) (GrabPointers c).
Proof. apply GrabPointers_GraspEnded. Qed.

Lemma filter_length_split {A} (f : A -> bool) (l : list A) :
  length (filter f l) + length (filter (fun x => negb (f x)) l) = length l.
Proof.
  induction l as [|x l IH]; simpl; [reflexivity|].
  destruct (f x); simpl; lia.
Qed.

Lemma EndNotifications_length p l :
  length (EndNotifications p l) = 2 * length (filter (held_by p) l).
Proof.
  unfold EndNotifications. induction (filter (held_by p) l) as [|d k IH]; simpl; [reflexivity|].
  rewrite IH. lia.
Qed.

(** X1: [GraspEnded] logs, after what was logged before and in the order
    of the record list, one unlock of the pointer and one [OnEndGrab]
    broadcast for each record of the pointer, then the tick update for the
    records that remain, then the call of the parent class; the
    notifications are two per record removed. *)
Theorem GraspEnded_notifies_each_removed_record p c :
  Calls (GraspEnded p c)
  = Calls c ++ EndNotifications p (GrabPointers c) ++ TickUpdate (GraspEnded p c)
      ++ [SuperGraspEnded p]
  /\ length (EndNotifications p (GrabPointers c)) + 2 * length (GrabPointers (GraspEnded p c))
     = 2 * length (GrabPointers c).
Proof.
  split; [apply Calls_GraspEnded|].
  rewrite EndNotifications_length, GrabPointers_GraspEnded_held.
  pose proof (filter_length_split (held_by p) (GrabPointers c)). lia.
Qed.

(** X2: [GraspEnded] for a pointer that has no record removes nothing and
    notifies nobody: the records are as before, no pointer is unlocked and
    nothing is broadcast; only the tick update and the parent's call are
    logged. *)
Theorem GraspEnded_without_record p c :
  ~ In (Some p) (pointers c) ->
  GrabPointers (GraspEnded p c) = GrabPointers c /\
  Calls (GraspEnded p c) = Calls c ++ TickUpdate c ++ [SuperGraspEnded p].
Proof.
  intro Hnotin. unfold pointers in Hnotin.
  assert (Hsame : GrabPointers (GraspEnded p c) = GrabPointers c).
  { rewrite GrabPointers_GraspEnded_held. now apply not_held_by_absent. }
  split; [exact Hsame|].
  rewrite Calls_GraspEnded. unfold EndNotifications.
  rewrite (held_by_absent _ _ Hnotin). simpl.
  now rewrite (TickUpdate_ext (GraspEnded p c) c (flag_GraspEnded p c) Hsame).
Qed.

Lemma GraspEnded_without_record_example :
  GrabPointers (GraspEnded 5 Examples.HeldByTwo) = GrabPointers Examples.HeldByTwo.
Proof.
  apply (GraspEnded_without_record 5 Examples.HeldByTwo).
  vm_compute. intros [H|[H|[]]]; discriminate H.
Defined.

Lemma filter_filter {A} (f g : A -> bool) (l : list A) :
  filter f (filter g l) = filter (fun x => g x && f x) l.
Proof.
  induction l as [|x l IH]; simpl; [reflexivity|].
  destruct (g x); simpl; [destruct (f x)|]; simpl; congruence.
Qed.

(** X3: the records after any sequence of [GraspStarted] and [GraspEnded]
    calls, whatever its order: the records that were there and whose
    pointer no call ends (a null pointer never is), followed by one record
    for each start that no later call ends, in the order of the starts. *)
Theorem records_are_the_surviving_starts E calls c :
  GetGrabPointers (run E calls c)
  = filter (Outlives calls) (GrabPointers c)
      ++ map (fun hp => GraspRecord E (fst hp) (snd hp)) (Surviving calls).
Proof.
  unfold GetGrabPointers.
  revert c. induction calls as [|k calls IH]; intro c.
  - simpl. rewrite app_nil_r. symmetry.
    rewrite <- (filter_ext (fun _ => true)); [|intro d; unfold Outlives; now destruct (Pointer d)].
    induction (GrabPointers c) as [|d l IHl]; simpl; congruence.
  - change (run E (k :: calls) c) with (run E calls (step E c k)).
    rewrite IH. destruct k as [h p|q]; cbn [step Surviving].
    + rewrite GrabPointers_GraspStarted, filter_app, <- app_assoc. f_equal.
      cbn [filter]. unfold Outlives at 1. cbn [Pointer GraspRecord].
      now destruct (EndedLater p calls).
    + f_equal. rewrite GrabPointers_GraspEnded_held, filter_filter.
      apply filter_ext. intro d. unfold Outlives, held_by. cbn [EndedLater].
      destruct (Pointer d) as [x|]; simpl; [|reflexivity].
      rewrite Nat.eqb_sym. now rewrite negb_orb.
Qed.

Lemma filter_not_held_by_snoc E h p l :
  ~ In (Some p) (map Pointer l) ->
  filter (fun data => negb (held_by p data)) (l ++ [GraspRecord E h p]) = l.
Proof.
  intro Hnotin. rewrite filter_app, (not_held_by_absent _ _ Hnotin). simpl.
  unfold held_by. simpl. rewrite Nat.eqb_refl. simpl. apply app_nil_r.
Qed.

(** X4: starting and then ending the grasp of a pointer that had no record
    gives back the record list as it was. *)
Theorem GraspEnded_undoes_GraspStarted E h p c :
  ~ In (Some p) (pointers c) ->
  GrabPointers (GraspEnded p (GraspStarted E h p c)) = GrabPointers c.
Proof.
  intro Hnotin.
  rewrite GrabPointers_GraspEnded_held, GrabPointers_GraspStarted.
  now apply filter_not_held_by_snoc.
Qed.

Lemma GraspEnded_undoes_GraspStarted_example :
  GrabPointers (GraspEnded 5 (GraspStarted Examples.TranslationEngine Examples.Scene 5
                                Examples.HeldByTwo))
  = GrabPointers Examples.HeldByTwo.
Proof.
  apply (GraspEnded_undoes_GraspStarted Examples.TranslationEngine Examples.Scene 5
           Examples.HeldByTwo).
  vm_compute. intros [H|[H|[]]]; discriminate H.
Defined.

(** X5: ending a grasp twice is ending it once, on the records and on the
    notifications (the second call unlocks and broadcasts nothing); and
    ending the grasps of two pointers leaves the same records in either
    order. *)
Theorem GraspEnded_idempotent_and_commutes p q c :
  GrabPointers (GraspEnded p (GraspEnded p c)) = GrabPointers (GraspEnded p c) /\
  EndNotifications p (GrabPointers (GraspEnded p c)) = [] /\
  GrabPointers (GraspEnded p (GraspEnded q c)) = GrabPointers (GraspEnded q (GraspEnded p c)).
Proof.
  rewrite !GrabPointers_GraspEnded_held, !filter_filter.
  split; [|split].
  - apply filter_ext. intro d. now destruct (held_by p d).
  - unfold EndNotifications. rewrite filter_filter.
    rewrite (filter_ext _ (fun _ => false)); [|intro d; now destruct (held_by p d)].
    now induction (GrabPointers c).
  - apply filter_ext. intro d. apply andb_comm.
Qed.

Lemma FindGrabPointerFrom_app_absent ptr l1 l2 i :
  ~ In ptr (map Pointer l1) ->
  FindGrabPointerFrom ptr (l1 ++ l2) i
  = FindGrabPointerFrom ptr l2 (i + Z.of_nat (length l1))%Z.
Proof.
  revert i. induction l1 as [|d l1 IH]; intros i Hnotin; simpl.
  - now rewrite Z.add_0_r.
  - simpl in Hnotin. destruct (pointer_eqb (Pointer d) ptr) eqn:Hd.
    + apply pointer_eqb_eq in Hd. tauto.
    + rewrite IH by tauto. f_equal. lia.
Qed.

Lemma pointers_after_GraspEnded_exclude p c :
  ~ In (Some p) (pointers (GraspEnded p c)).
Proof.
  rewrite pointers_GraspEnded. intro Hin. apply filter_In in Hin.
  destruct Hin as [_ Hne]. apply negb_true_iff, pointer_eqb_neq in Hne. congruence.
Qed.

(** X6: lookup after the two grasp calls.  Once [GraspEnded] has run for a
    pointer, [FindGrabPointer] does not find it: [Success] is false,
    [Index] is -1 and [PointerData] is untouched.  Once [GraspStarted] has
    run for a pointer, [FindGrabPointer] finds it; if the pointer had no
    record before, what it finds is the new record, at the index that was
    the record count. *)
Theorem FindGrabPointer_after_grasp_calls E h p c PointerData0 :
  FindGrabPointer (GraspEnded p c) (Some p) PointerData0 = (false, PointerData0, (-1)%Z) /\
  fst (fst (FindGrabPointer (GraspStarted E h p c) (Some p) PointerData0)) = true /\
  (~ In (Some p) (pointers c) ->
   FindGrabPointer (GraspStarted E h p c) (Some p) PointerData0
   = (true, GraspRecord E h p, Num c)).
Proof.
  split; [|split].
  - unfold FindGrabPointer, FindGrabPointerInternal.
    now rewrite (FindGrabPointerFrom_absent _ _ 0%Z (pointers_after_GraspEnded_exclude p c)).
  - unfold FindGrabPointer, FindGrabPointerInternal.
    destruct (FindGrabPointerFrom_present (Some p) (GrabPointers (GraspStarted E h p c)) 0)
      as (n & data & Hfind & _).
    { rewrite GrabPointers_GraspStarted, map_app, in_app_iff. right. now left. }
    now rewrite Hfind.
  - intro Hnotin. unfold FindGrabPointer, FindGrabPointerInternal.
    rewrite GrabPointers_GraspStarted, (FindGrabPointerFrom_app_absent _ _ _ 0%Z Hnotin).
    simpl. now rewrite Nat.eqb_refl.
Qed.

Lemma FindGrabPointer_after_grasp_calls_example :
  FindGrabPointer
    (GraspStarted Examples.TranslationEngine Examples.Scene 5 Examples.HeldByTwo)
    (Some 5) Examples.StaleRecord
  = (true, GraspRecord Examples.TranslationEngine Examples.Scene 5, Num Examples.HeldByTwo).
Proof.
  apply (FindGrabPointer_after_grasp_calls Examples.TranslationEngine Examples.Scene 5
           Examples.HeldByTwo Examples.StaleRecord).
  vm_compute. intros [H|[H|[]]]; discriminate H.
Defined.

Lemma TickEnabled_app l1 l2 :
  TickEnabled (l1 ++ l2)
  = match TickEnabled l2 with Some enabled => Some enabled | None => TickEnabled l1 end.
Proof.
  induction l1 as [|k l1 IH]; simpl.
  - now destruct (TickEnabled l2).
  - rewrite IH. now destruct (TickEnabled l2).
Qed.

Lemma TickEnabled_EndNotifications p l : TickEnabled (EndNotifications p l) = None.
Proof.
  unfold EndNotifications. induction (filter (held_by p) l) as [|d k IH]; simpl; [reflexivity|].
  now rewrite IH.
Qed.

Lemma TickEnabled_step E c k :
  TickEnabled (Calls (step E c k))
  = if bTickOnlyWhileGrabbed c then Some (Num (step E c k) >? 0)%Z
    else TickEnabled (Calls c).
Proof.
  destruct k as [h p|p]; cbn [step].
  - rewrite Calls_GraspStarted, !TickEnabled_app. unfold TickUpdate.
    rewrite flag_GraspStarted. now destruct (bTickOnlyWhileGrabbed c).
  - rewrite Calls_GraspEnded, !TickEnabled_app, TickEnabled_EndNotifications.
    unfold TickUpdate. rewrite flag_GraspEnded. now destruct (bTickOnlyWhileGrabbed c).
Qed.

Lemma flag_run E calls c :
  bTickOnlyWhileGrabbed (run E calls c) = bTickOnlyWhileGrabbed c.
Proof.
  revert c. induction calls as [|k calls IH]; intro c; [reflexivity|].
  change (run E (k :: calls) c) with (run E calls (step E c k)). rewrite IH.
  destruct k; [apply flag_GraspStarted|apply flag_GraspEnded].
Qed.

(** X7: the tick follows the records.  With [bTickOnlyWhileGrabbed] set,
    after any non-empty sequence of grasp calls the tick function was last
    enabled exactly if a record remains; with the flag clear the grasp
    calls never touch the tick function.  [SetTickOnlyWhileGrabbed] puts
    the tick in that state at once: on if the flag is cleared, on exactly
    if there is a record if it is set; it changes no record, and
    [GetTickOnlyWhileGrabbed] reads the flag back. *)
Theorem tick_follows_the_records E calls c :
  calls <> [] ->
  (bTickOnlyWhileGrabbed c = true ->
   TickEnabled (Calls (run E calls c)) = Some (Num (run E calls c) >? 0)%Z) /\
  (bTickOnlyWhileGrabbed c = false ->
   TickEnabled (Calls (run E calls c)) = TickEnabled (Calls c)) /\
  (forall bEnable,
      TickEnabled (Calls (SetTickOnlyWhileGrabbed bEnable c))
      = Some (if bEnable then (Num c >? 0)%Z else true) /\
      GrabPointers (SetTickOnlyWhileGrabbed bEnable c) = GrabPointers c /\
      GetTickOnlyWhileGrabbed (SetTickOnlyWhileGrabbed bEnable c) = bEnable).
Proof.
  intro Hcalls. split; [|split].
  - intro Hflag. destruct (exists_last Hcalls) as (calls' & k & ->).
    rewrite run_snoc, TickEnabled_step, flag_run, Hflag. reflexivity.
  - intro Hflag. clear Hcalls. revert c Hflag.
    induction calls as [|k calls IH]; intros c Hflag; [reflexivity|].
    change (run E (k :: calls) c) with (run E calls (step E c k)).
    rewrite IH.
    + now rewrite TickEnabled_step, Hflag.
    + destruct k; cbn [step]; [now rewrite flag_GraspStarted|now rewrite flag_GraspEnded].
  - intro bEnable. unfold SetTickOnlyWhileGrabbed, UpdateComponentTickEnabled.
    destruct bEnable; simpl; rewrite TickEnabled_app; repeat split.
Qed.

Lemma tick_follows_the_records_example :
  TickEnabled (Calls (run Examples.TranslationEngine Examples.TwoHands (NewComponent true)))
  = Some (Num (run Examples.TranslationEngine Examples.TwoHands (NewComponent true)) >? 0)%Z.
Proof.
  apply (tick_follows_the_records Examples.TranslationEngine Examples.TwoHands
           (NewComponent true)).
  - discriminate.
  - reflexivity.
Defined.

Lemma GetTargetCentroid_fold h l sum reports :
  fold_left
    (fun (acc : Ensured FVector) data =>
       centroid <- acc ;;
       ok <- ensure (is_valid (Pointer data)) ;;
       if ok
       then target <- GetTargetLocation h data ;; retE (FVectorOps.add centroid target)
       else retE centroid)
    l (sum, reports)
  = (fold_left
       (fun sum data =>
          match Pointer data with
          | Some p => FVectorOps.add sum (PointerLocation h p)
          | None => sum
          end)
       l sum,
     reports + length (StaleRecords l)).
Proof.
  revert sum reports. induction l as [|d l IH]; intros sum reports; simpl.
  - now rewrite Nat.add_0_r.
  - match goal with |- fold_left _ _ ?acc = _ =>
      assert (Hacc : acc
                     = (match Pointer d with
                        | Some p => FVectorOps.add sum (PointerLocation h p)
                        | None => sum
                        end,
                        reports + (if is_valid (Pointer d) then 0 else 1)))
    end.
    { unfold GetTargetLocation, bindE, ensure, retE.
      destruct (Pointer d); simpl; f_equal; lia. }
    rewrite Hacc, IH. unfold StaleRecords. simpl.
    destruct (Pointer d); simpl; f_equal; lia.
Qed.

(** X8: [GetTargetCentroid] reports one failed assertion for each record
    whose pointer is null, and none otherwise; such a record adds nothing
    to the sum of target locations but still counts in the divisor, the
    maximum of the record count and 1. *)
Theorem GetTargetCentroid_skips_stale_records h c :
  GetTargetCentroid h c
  = (FVectorOps.div (LiveTargetSum h (GrabPointers c)) (F32.of_int (CentroidDivisor c)),
     length (StaleRecords (GrabPointers c))).
Proof.
  unfold GetTargetCentroid.
  change (@retE FVector FVectorOps.ZeroVector) with (FVectorOps.ZeroVector, 0).
  rewrite GetTargetCentroid_fold.
  unfold bindE, retE, LiveTargetSum. simpl. f_equal. lia.
Qed.

(** X9: the accessors agree with the lookup.  The record the primary
    accessor yields is the one [FindGrabPointer] finds for that record's
    pointer, at index 0; when the secondary accessor yields a record the
    primary one does too, and if their pointers differ [FindGrabPointer]
    finds the secondary record at index 1. *)
Theorem accessors_agree_with_FindGrabPointer c PointerData0 PointerData1 :
  (forall data, GetPrimaryGrabPointer c PointerData0 = (true, data) ->
                FindGrabPointer c (Pointer data) PointerData1 = (true, data, 0%Z)) /\
  (forall data2, GetSecondaryGrabPointer c PointerData0 = (true, data2) ->
                 exists data1,
                   GetPrimaryGrabPointer c PointerData0 = (true, data1) /\
                   (Pointer data1 <> Pointer data2 ->
                    FindGrabPointer c (Pointer data2) PointerData1 = (true, data2, 1%Z))).
Proof.
  assert (Hsame : forall d, pointer_eqb (Pointer d) (Pointer d) = true)
    by (intro d; now apply pointer_eqb_eq).
  unfold GetPrimaryGrabPointer, GetSecondaryGrabPointer, FindGrabPointer,
    FindGrabPointerInternal, Num.
  split.
  - intros data Hprimary.
    destruct (GrabPointers c) as [|d1 l]; cbn [length nth_error] in *.
    + discriminate Hprimary.
    + destruct (Z.of_nat (S (length l)) >=? 1)%Z; [|discriminate Hprimary].
      injection Hprimary as <-. cbn [FindGrabPointerFrom]. now rewrite Hsame.
  - intros data2 Hsecondary.
    destruct (GrabPointers c) as [|d1 [|d2 l]]; cbn [length nth_error] in *.
    + discriminate Hsecondary.
    + discriminate Hsecondary.
    + destruct (Z.of_nat (S (S (length l))) >=? 2)%Z; [|discriminate Hsecondary].
      injection Hsecondary as <-. exists d1. split.
      * destruct (Z.geb_spec (Z.of_nat (S (S (length l)))) 1); [reflexivity|lia].
      * intro Hdiff. apply pointer_eqb_neq in Hdiff.
        cbn [FindGrabPointerFrom]. now rewrite Hdiff, Hsame.
Qed.

Lemma accessors_agree_with_FindGrabPointer_example :
  FindGrabPointer Examples.HeldByTwo
    (Pointer (GraspRecord Examples.TranslationEngine Examples.Scene 1))
    Examples.StaleRecord
  = (true, GraspRecord Examples.TranslationEngine Examples.Scene 1, 0%Z).
Proof.
  apply (proj1 (accessors_agree_with_FindGrabPointer Examples.HeldByTwo Examples.StaleRecord
                  Examples.StaleRecord)).
  reflexivity.
Defined.

End GrabbableCoverage.

(** ** Further properties of the pressable button *)

Module ButtonCoverage.

Import Button ButtonRest.

Lemma OnlyCalls_refl a : OnlyCalls a a [].
Proof. unfold OnlyCalls. rewrite app_nil_r. now destruct a. Qed.

Lemma OnlyCalls_call a b added k :
  OnlyCalls a b added -> OnlyCalls a (call k b) (added ++ [k]).
Proof. unfold OnlyCalls, call. intros ->. simpl. now rewrite app_assoc. Qed.

Lemma OnlyCalls_when_some {A} (o : option A) (f : A -> HostCall) a b added :
  OnlyCalls a b added ->
  OnlyCalls a (match o with Some m => call (f m) b | None => b end)
    (added ++ match o with Some m => [f m] | None => [] end).
Proof.
  intro H. destruct o; [now apply OnlyCalls_call|now rewrite app_nil_r].
Qed.

Lemma ConstructVisuals_added GetSize h a :
  exists added,
    OnlyCalls a (ConstructVisuals GetSize h a) added /\
    7 <= length added <= 11 /\
    TickCalls added = [].
Proof.
  unfold ConstructVisuals.
  pose proof (OnlyCalls_when_some (BackPlateMaterial (Visuals a))
                (fun m => BackPlate_SetBackPlateMaterial (Some m)) _ _ _
                (OnlyCalls_refl a)) as H1.
  set (a1 := match BackPlateMaterial (Visuals a) with
             | Some m => call (BackPlate_SetBackPlateMaterial (Some m)) a
             | None => a
             end) in *.
  assert (Hv1 : Visuals a1 = Visuals a) by (rewrite H1; reflexivity).
  rewrite Hv1.
  pose proof (OnlyCalls_when_some (BackPlateMesh (Visuals a))
                (fun m => BackPlate_SetStaticMesh (Some m)) _ _ _ H1) as H2.
  set (a2 := match BackPlateMesh (Visuals a) with
             | Some m => call (BackPlate_SetStaticMesh (Some m)) a1
             | None => a1
             end) in *.
  set (Size := GetSize a2).
  pose proof (OnlyCalls_call _ _ _
                (FrontPlateCenter_SetRelativeLocation
                   (mkFVector (F32.mul (vX Size) F32.half) F32.zero F32.zero))
                (OnlyCalls_call _ _ _ (BackPlate_SetVisibility (bIsPlated a2))
                   (OnlyCalls_call _ _ _
                      (BackPlate_SetRelativeScale3D
                         (mkFVector (vZ Size) (vY Size) (vZ (BackPlateRelativeScale3D h))))
                      H2))) as H5.
  set (a5 := call (FrontPlateCenter_SetRelativeLocation _) _) in *.
  assert (Hv5 : Visuals a5 = Visuals a) by (rewrite H5; reflexivity).
  rewrite Hv5.
  pose proof (OnlyCalls_when_some (FrontPlateMaterial (Visuals a))
                (fun m => FrontPlate_SetMaterial 0 (Some m)) _ _ _ H5) as H6.
  set (a6 := match FrontPlateMaterial (Visuals a) with
             | Some m => call (FrontPlate_SetMaterial 0 (Some m)) a5
             | None => a5
             end) in *.
  assert (Hv6 : Visuals a6 = Visuals a) by (rewrite H6; reflexivity).
  rewrite Hv6.
  pose proof (OnlyCalls_when_some (FrontPlateMesh (Visuals a))
                (fun m => FrontPlate_SetStaticMesh (Some m)) _ _ _ H6) as H7.
  set (a7 := match FrontPlateMesh (Visuals a) with
             | Some m => call (FrontPlate_SetStaticMesh (Some m)) a6
             | None => a6
             end) in *.
  eexists. split.
  - apply OnlyCalls_call, OnlyCalls_call, OnlyCalls_call, OnlyCalls_call. exact H7.
  - destruct (BackPlateMaterial (Visuals a)), (BackPlateMesh (Visuals a)),
      (FrontPlateMaterial (Visuals a)), (FrontPlateMesh (Visuals a));
      (split; [simpl; lia|reflexivity]).
Qed.

(** X10: [ConstructVisuals] changes no field of the actor: all it does is
    make between seven and eleven calls on the components, none of which is
    [SetActorTickEnabled]. *)
Theorem ConstructVisuals_only_calls_components GetSize h a :
  exists added,
    OnlyCalls a (ConstructVisuals GetSize h a) added /\
    7 <= length added <= 11 /\
    TickCalls added = [].
Proof. exact (ConstructVisuals_added GetSize h a). Qed.

Lemma eqb_irreflexive_is_nan x : F32.eqb x x = false -> x = S754_nan.
Proof.
  destruct x as [s|s| |s m e]; try destruct s; simpl; intro H;
    try discriminate; try reflexivity;
    unfold F32.eqb, SFeqb, SFcompare in H;
    rewrite Z.compare_refl, Pos.compare_cont_refl in H; discriminate.
Qed.

Lemma neb_nan_right x : F32.neb x S754_nan = true.
Proof. now destruct x as [s|s| |s m e]; try destruct s. Qed.

Lemma neb_self_taints M : FVectorOps.neb M M = true -> forall X, FVectorOps.neb X M = true.
Proof.
  unfold FVectorOps.neb. intros H X.
  apply orb_true_iff in H. destruct H as [H|H]; [apply orb_true_iff in H; destruct H as [H|H]|];
    apply negb_true_iff, eqb_irreflexive_is_nan in H; rewrite H, neb_nan_right;
    rewrite ?orb_true_r; reflexivity.
Qed.

(** X11: setting the millimeter size a second time to the same value
    rebuilds nothing, provided no component of the value is a NaN; a value
    with a NaN component never compares equal to the stored size, so every
    call with it stores it and rebuilds the visuals. *)
Theorem SetMillimeterSize_settles GetSize h h' M a :
  (FVectorOps.neb M M = false ->
   SetMillimeterSize GetSize h' M (SetMillimeterSize GetSize h M a)
   = SetMillimeterSize GetSize h M a) /\
  (FVectorOps.neb M M = true ->
   SetMillimeterSize GetSize h M a = ConstructVisuals GetSize h (set_MillimeterSize M a) /\
   length (Calls a) < length (Calls (SetMillimeterSize GetSize h M a))).
Proof.
  split.
  - intro Hself. unfold SetMillimeterSize.
    destruct (FVectorOps.neb (MillimeterSize a) M) eqn:Hchanged.
    + destruct (ConstructVisuals_added GetSize h (set_MillimeterSize M a))
        as (added & Honly & _).
      rewrite Honly at 1. cbn [MillimeterSize set_MillimeterSize]. now rewrite Hself.
    + now rewrite Hchanged.
  - intro Hnan. unfold SetMillimeterSize. rewrite (neb_self_taints M Hnan).
    split; [reflexivity|].
    destruct (ConstructVisuals_added GetSize h (set_MillimeterSize M a))
      as (added & Honly & Hlen & _).
    rewrite Honly. cbn [Calls set_MillimeterSize]. rewrite length_app. lia.
Qed.

Lemma SetMillimeterSize_settles_example :
  SetMillimeterSize Examples.GetSizeOf (Examples.ButtonHost Default) FVectorOps.OneVector
    (SetMillimeterSize Examples.GetSizeOf (Examples.ButtonHost Default) FVectorOps.OneVector
       Examples.RestingButton)
  = SetMillimeterSize Examples.GetSizeOf (Examples.ButtonHost Default) FVectorOps.OneVector
      Examples.RestingButton
  /\ length (Calls Examples.RestingButton)
     < length (Calls (SetMillimeterSize Examples.GetSizeOf (Examples.ButtonHost Default)
                        (mkFVector S754_nan F32.one F32.one) Examples.RestingButton)).
Proof.
  split.
  - apply (proj1 (SetMillimeterSize_settles Examples.GetSizeOf (Examples.ButtonHost Default)
                    (Examples.ButtonHost Default) FVectorOps.OneVector Examples.RestingButton)).
    reflexivity.
  - apply (proj2 (SetMillimeterSize_settles Examples.GetSizeOf (Examples.ButtonHost Default)
                    (Examples.ButtonHost Default) (mkFVector S754_nan F32.one F32.one)
                    Examples.RestingButton)).
    reflexivity.
Defined.

(** X12: [SetIsPlated] stores the flag; it shows or hides the back plate
    exactly when the flag changes, so repeating a call or passing the
    current value does nothing. *)
Theorem SetIsPlated_acts_on_change IsPlated a :
  bIsPlated (SetIsPlated IsPlated a) = IsPlated /\
  SetIsPlated IsPlated (SetIsPlated IsPlated a) = SetIsPlated IsPlated a /\
  SetIsPlated (bIsPlated a) a = a /\
  (bIsPlated a <> IsPlated ->
   Calls (SetIsPlated IsPlated a) = Calls a ++ [BackPlate_SetVisibility IsPlated]).
Proof.
  unfold SetIsPlated. repeat split.
  - destruct (bIsPlated a) eqn:Hflag, IsPlated; simpl; congruence.
  - destruct (bIsPlated a) eqn:Hflag, IsPlated; simpl; rewrite ?Hflag; reflexivity.
  - now rewrite Bool.eqb_reflx.
  - intro Hdiff. destruct (bIsPlated a), IsPlated; simpl; congruence.
Qed.

Lemma SetIsPlated_acts_on_change_example :
  Calls (SetIsPlated false Examples.RestingButton)
  = Calls Examples.RestingButton ++ [BackPlate_SetVisibility false].
Proof.
  apply (SetIsPlated_acts_on_change false Examples.RestingButton).
  discriminate.
Defined.

Ltac case_ifs :=
  repeat match goal with
         | |- context [if ?b then _ else _] => destruct b eqn:?
         end.

(** [AnimatePulse] touches the pulse timers, the pulse material instance
    and the call log, nothing else. *)
Lemma AnimatePulse_frame h DeltaTime a :
  Visuals (fst (AnimatePulse h DeltaTime a)) = Visuals a /\
  IconRelativeLocation (fst (AnimatePulse h DeltaTime a)) = IconRelativeLocation a /\
  MillimeterSize (fst (AnimatePulse h DeltaTime a)) = MillimeterSize a /\
  bIsPlated (fst (AnimatePulse h DeltaTime a)) = bIsPlated a /\
  FocusTimer (fst (AnimatePulse h DeltaTime a)) = FocusTimer a /\
  MaterialIndex (fst (AnimatePulse h DeltaTime a)) = MaterialIndex a /\
  PrePulseMaterial (fst (AnimatePulse h DeltaTime a)) = PrePulseMaterial a.
Proof. unfold AnimatePulse. case_ifs; repeat split. Qed.

(** Logging a call before [AnimatePulse] changes neither its verdict nor
    the timers it leaves. *)
Lemma AnimatePulse_after_call h DeltaTime k a :
  snd (AnimatePulse h DeltaTime (call k a)) = snd (AnimatePulse h DeltaTime a) /\
  PulseTimer (fst (AnimatePulse h DeltaTime (call k a)))
  = PulseTimer (fst (AnimatePulse h DeltaTime a)) /\
  PulseFadeTimer (fst (AnimatePulse h DeltaTime (call k a)))
  = PulseFadeTimer (fst (AnimatePulse h DeltaTime a)) /\
  PulseMaterialInstance (fst (AnimatePulse h DeltaTime (call k a)))
  = PulseMaterialInstance (fst (AnimatePulse h DeltaTime a)).
Proof.
  unfold AnimatePulse. cbn [call PulseTimer PulseFadeTimer Visuals].
  destruct (F32.gtb (PulseTimer a) F32.one);
    [destruct (F32.gtb (PulseFadeTimer a) F32.one)
    |destruct (F32.geb (PulseTimer a) F32.zero)];
    cbn; try (repeat split; reflexivity).
  case_ifs; repeat split.
Qed.

Lemma AnimatePulse_calls h DeltaTime a :
  exists added,
    Calls (fst (AnimatePulse h DeltaTime a)) = Calls a ++ added /\ TickCalls added = [].
Proof.
  unfold AnimatePulse.
  destruct (F32.gtb (PulseTimer a) F32.one);
    [destruct (F32.gtb (PulseFadeTimer a) F32.one)
    |destruct (F32.geb (PulseTimer a) F32.zero)]; cbn.
  - eexists. split; reflexivity.
  - eexists. split; reflexivity.
  - match goal with |- context [if ?b then _ else _] => destruct b end; cbn.
    + rewrite <- !app_assoc. eexists. split; reflexivity.
    + eexists. split; reflexivity.
  - exists []. now rewrite app_nil_r.
Qed.

(** X13: once [AnimatePulse] reports the pulse complete, the pulse timer
    is neither above 1 nor at least 0, and every later frame reports
    complete again and leaves the actor as it is: nothing is animated until
    a new pulse begins. *)
Theorem pulse_completion_is_final h DeltaTime a :
  snd (AnimatePulse h DeltaTime a) = true ->
  F32.gtb (PulseTimer (fst (AnimatePulse h DeltaTime a))) F32.one = false /\
  F32.geb (PulseTimer (fst (AnimatePulse h DeltaTime a))) F32.zero = false /\
  forall h' DeltaTime',
    AnimatePulse h' DeltaTime' (fst (AnimatePulse h DeltaTime a))
    = (fst (AnimatePulse h DeltaTime a), true).
Proof.
  intro Hdone.
  assert (Hidle : F32.gtb (PulseTimer (fst (AnimatePulse h DeltaTime a))) F32.one = false /\
                  F32.geb (PulseTimer (fst (AnimatePulse h DeltaTime a))) F32.zero = false).
  { revert Hdone. unfold AnimatePulse.
    destruct (F32.gtb (PulseTimer a) F32.one) eqn:Hrise;
      [destruct (F32.gtb (PulseFadeTimer a) F32.one)
      |destruct (F32.geb (PulseTimer a) F32.zero) eqn:Hrun];
      cbn; intro Hdone; try discriminate Hdone; split; try reflexivity; assumption. }
  destruct Hidle as [Hrise Hrun]. repeat split; trivial.
  intros h' DeltaTime'. unfold AnimatePulse at 1. now rewrite Hrise, Hrun.
Qed.

Lemma pulse_completion_is_final_example :
  F32.geb
    (PulseTimer
       (fst (AnimatePulse (Examples.ButtonHost Default) F32.one MoreExamples.FinishedButton)))
    F32.zero = false
  /\ AnimatePulse (Examples.ButtonHost Pressed) F32.half
       (fst (AnimatePulse (Examples.ButtonHost Default) F32.one MoreExamples.FinishedButton))
     = (fst (AnimatePulse (Examples.ButtonHost Default) F32.one MoreExamples.FinishedButton),
        true).
Proof.
  destruct (pulse_completion_is_final (Examples.ButtonHost Default) F32.one
              MoreExamples.FinishedButton eq_refl) as (_ & Hrun & Hlater).
  split; [exact Hrun|apply Hlater].
Defined.

Lemma PulseFrames_frame frames a :
  MaterialIndex (PulseFrames frames a) = MaterialIndex a /\
  PrePulseMaterial (PulseFrames frames a) = PrePulseMaterial a.
Proof.
  revert a. induction frames as [|[h DeltaTime] rest IH]; intro a; [split; reflexivity|].
  cbn [PulseFrames]. destruct (IH (fst (AnimatePulse h DeltaTime a))) as [Hi Hm].
  destruct (AnimatePulse_frame h DeltaTime a) as (_ & _ & _ & _ & _ & Hi' & Hm').
  split; congruence.
Qed.

(** X14: a pulse gives back the material it found.  Whatever frames
    [AnimatePulse] has run since [BeginPulse] started the pulse, the frame
    that finds both timers above 1 sets the front plate back to the
    material it had when the pulse began, drops the pulse material
    instance, marks both timers as not running and reports the pulse
    complete. *)
Theorem pulse_restores_the_material IsPulsing h0 P a frames h DeltaTime :
  IsPulsing a = false ->
  F32.gtb (PulseTimer (PulseFrames frames (fst (BeginPulse IsPulsing h0 (Some P) a))))
    F32.one = true ->
  F32.gtb (PulseFadeTimer (PulseFrames frames (fst (BeginPulse IsPulsing h0 (Some P) a))))
    F32.one = true ->
  AnimatePulse h DeltaTime (PulseFrames frames (fst (BeginPulse IsPulsing h0 (Some P) a)))
  = (set_PulseFadeTimer F32.minus_one
       (set_PulseTimer F32.minus_one
          (set_PulseMaterialInstance None
             (call (FrontPlate_SetMaterial 0 (FrontPlateMaterial0 h0))
                (PulseFrames frames (fst (BeginPulse IsPulsing h0 (Some P) a)))))),
     true).
Proof.
  intros Hidle Hrise Hfade.
  destruct (PulseFrames_frame frames (fst (BeginPulse IsPulsing h0 (Some P) a)))
    as [_ Hmaterial].
  unfold AnimatePulse. rewrite Hrise, Hfade, Hmaterial.
  unfold BeginPulse. rewrite Hidle. reflexivity.
Qed.

Lemma pulse_restores_the_material_example :
  snd (AnimatePulse (Examples.ButtonHost Default) F32.one
         (PulseFrames MoreExamples.ThreeSeconds
            (fst (BeginPulse Examples.IsPulsingOf (Examples.ButtonHost Pressed)
                    (Some Examples.RightHandPointer) Examples.RestingButton))))
  = true.
Proof.
  rewrite (pulse_restores_the_material Examples.IsPulsingOf (Examples.ButtonHost Pressed)
             Examples.RightHandPointer Examples.RestingButton MoreExamples.ThreeSeconds
             (Examples.ButtonHost Default) F32.one); reflexivity.
Defined.

(** X15: the hand picks the variant.  A pulse begun by a left-hand pointer
    uses index 1: the left pulse material, the instance name [LeftPulse]
    and the parameter [Blob_Position]; any other hand uses index 0: the
    right pulse material, [RightPulse] and [Blob_Position_2].  The index,
    so the variant, stays the same through every [AnimatePulse] frame. *)
Theorem pulse_variant_follows_the_hand IsPulsing h0 P a frames :
  IsPulsing a = false ->
  MaterialIndex (PulseFrames frames (fst (BeginPulse IsPulsing h0 (Some P) a)))
  = (if hand_eqb (Hand P) Left then 1 else 0)%Z /\
  Calls (fst (BeginPulse IsPulsing h0 (Some P) a))
  = Calls a
      ++ [FrontPlate_CreateDynamicMaterialInstance 0
            (if hand_eqb (Hand P) Left
             then FrontPlatePulseLeftMaterial (Visuals a)
             else FrontPlatePulseRightMaterial (Visuals a))
            (if hand_eqb (Hand P) Left then "LeftPulse" else "RightPulse")%string;
          Material_SetVectorParameterValue (Some (NewDynamicMaterialInstance h0))
            (if hand_eqb (Hand P) Left then "Blob_Position" else "Blob_Position_2")%string
            (FVectorOps.sub (GetLocation (CursorTransform P)) (FrontPlateForwardVector h0));
          SetActorTickEnabled true].
Proof.
  intro Hidle.
  destruct (PulseFrames_frame frames (fst (BeginPulse IsPulsing h0 (Some P) a)))
    as [Hindex _].
  rewrite Hindex. unfold BeginPulse. rewrite Hidle.
  destruct (hand_eqb (Hand P) Left); cbn; rewrite <- !app_assoc; split; reflexivity.
Qed.

Lemma pulse_variant_follows_the_hand_example :
  MaterialIndex
    (PulseFrames MoreExamples.ThreeSeconds
       (fst (BeginPulse Examples.IsPulsingOf (Examples.ButtonHost Pressed)
               (Some MoreExamples.LeftHandPointer) Examples.RestingButton)))
  = 1%Z.
Proof.
  apply (pulse_variant_follows_the_hand Examples.IsPulsingOf (Examples.ButtonHost Pressed)
           MoreExamples.LeftHandPointer Examples.RestingButton MoreExamples.ThreeSeconds).
  reflexivity.
Defined.

(** X16: [BeginPulse] returns true exactly when no pulse is in progress
    and a pointer is given; when it returns false, and so always for a null
    pointer, the actor is as before: no timer is reset, no material
    instance is created and ticking is not enabled. *)
Theorem BeginPulse_needs_a_pointer IsPulsing h Pointer a :
  snd (BeginPulse IsPulsing h Pointer a)
  = negb (IsPulsing a) && (match Pointer with Some _ => true | None => false end) /\
  (snd (BeginPulse IsPulsing h Pointer a) = false ->
   fst (BeginPulse IsPulsing h Pointer a) = a) /\
  BeginPulse IsPulsing h None a = (a, false).
Proof.
  unfold BeginPulse. destruct (IsPulsing a), Pointer; cbn; repeat split; trivial; discriminate.
Qed.

Lemma BeginPulse_needs_a_pointer_example :
  fst (BeginPulse Examples.IsPulsingOf (Examples.ButtonHost Pressed) None
         Examples.RestingButton)
  = Examples.RestingButton.
Proof.
  apply (proj1 (proj2 (BeginPulse_needs_a_pointer Examples.IsPulsingOf
                         (Examples.ButtonHost Pressed) None Examples.RestingButton))).
  reflexivity.
Defined.

Lemma TickCalls_app l1 l2 : TickCalls (l1 ++ l2) = TickCalls l1 ++ TickCalls l2.
Proof. apply filter_app. Qed.

Lemma FocusTarget_ext h DeltaTime a b :
  FocusTimer a = FocusTimer b -> Visuals a = Visuals b ->
  FocusTarget h DeltaTime a = FocusTarget h DeltaTime b.
Proof. unfold FocusTarget, FocusSpeed. now intros -> ->. Qed.

(** The focus timer and the verdict of [AnimateFocus] depend on the focus
    timer and the brush only. *)
Lemma AnimateFocus_ext GetSize h DeltaTime a b :
  FocusTimer a = FocusTimer b -> Visuals a = Visuals b ->
  FocusTimer (fst (AnimateFocus GetSize h DeltaTime a))
  = FocusTimer (fst (AnimateFocus GetSize h DeltaTime b)) /\
  snd (AnimateFocus GetSize h DeltaTime a) = snd (AnimateFocus GetSize h DeltaTime b).
Proof.
  intros Ht Hv. unfold AnimateFocus. cbn.
  now rewrite (FocusTarget_ext h DeltaTime a b Ht Hv).
Qed.

Lemma Tick_result GetSize h DeltaTime a :
  Tick GetSize h DeltaTime a
  = if snd (AnimatePulse h DeltaTime a) && snd (AnimateFocus GetSize h DeltaTime a)
    then call (SetActorTickEnabled false) (Animated GetSize h DeltaTime a)
    else Animated GetSize h DeltaTime a.
Proof.
  unfold Tick, Animated.
  destruct (AnimatePulse_after_call h DeltaTime (SuperTick DeltaTime) a) as (Hsnd & _).
  destruct (AnimatePulse_frame h DeltaTime (call (SuperTick DeltaTime) a))
    as (Hv & _ & _ & _ & Ht & _).
  destruct (AnimateFocus_ext GetSize h DeltaTime
              (fst (AnimatePulse h DeltaTime (call (SuperTick DeltaTime) a))) a Ht Hv)
    as [_ Hfocus].
  destruct (AnimatePulse h DeltaTime (call (SuperTick DeltaTime) a)) as [a1 pc] eqn:Hpulse.
  cbn [fst snd] in *.
  destruct (AnimateFocus GetSize h DeltaTime a1) as [a2 fc] eqn:Hfoc.
  cbn [fst snd] in *. now rewrite <- Hsnd, <- Hfocus.
Qed.

Lemma TickCalls_Animated GetSize h DeltaTime a :
  TickCalls (Calls (Animated GetSize h DeltaTime a)) = TickCalls (Calls a).
Proof.
  unfold Animated.
  destruct (AnimatePulse_calls h DeltaTime (call (SuperTick DeltaTime) a))
    as (added & Hcalls & Hnone).
  unfold AnimateFocus. cbn [fst Calls call set_FocusTimer].
  rewrite Hcalls. cbn [Calls call].
  rewrite !TickCalls_app, Hnone. cbn. now rewrite !app_nil_r.
Qed.

(** X17: the only thing [Tick] does to the ticking is to disable it, and
    it does so exactly when [AnimatePulse] and [AnimateFocus] both report
    complete for the frame; it never enables it. *)
Theorem Tick_stops_ticking_when_settled GetSize h DeltaTime a :
  TickCalls (Calls (Tick GetSize h DeltaTime a))
  = TickCalls (Calls a)
      ++ (if snd (AnimatePulse h DeltaTime a) && snd (AnimateFocus GetSize h DeltaTime a)
          then [SetActorTickEnabled false] else []).
Proof.
  rewrite Tick_result.
  destruct (snd (AnimatePulse h DeltaTime a) && snd (AnimateFocus GetSize h DeltaTime a)).
  - cbn [Calls call]. now rewrite TickCalls_app, TickCalls_Animated.
  - now rewrite TickCalls_Animated, app_nil_r.
Qed.

Lemma Animated_fields GetSize h DeltaTime a :
  PulseTimer (Animated GetSize h DeltaTime a) = PulseTimer (fst (AnimatePulse h DeltaTime a)) /\
  PulseFadeTimer (Animated GetSize h DeltaTime a)
  = PulseFadeTimer (fst (AnimatePulse h DeltaTime a)) /\
  PulseMaterialInstance (Animated GetSize h DeltaTime a)
  = PulseMaterialInstance (fst (AnimatePulse h DeltaTime a)) /\
  FocusTimer (Animated GetSize h DeltaTime a)
  = FocusTimer (fst (AnimateFocus GetSize h DeltaTime a)) /\
  Visuals (Animated GetSize h DeltaTime a) = Visuals a /\
  MillimeterSize (Animated GetSize h DeltaTime a) = MillimeterSize a /\
  bIsPlated (Animated GetSize h DeltaTime a) = bIsPlated a /\
  MaterialIndex (Animated GetSize h DeltaTime a) = MaterialIndex a /\
  PrePulseMaterial (Animated GetSize h DeltaTime a) = PrePulseMaterial a.
Proof.
  unfold Animated.
  destruct (AnimatePulse_after_call h DeltaTime (SuperTick DeltaTime) a)
    as (_ & Hpt & Hpf & Hpm).
  destruct (AnimatePulse_frame h DeltaTime (call (SuperTick DeltaTime) a))
    as (Hv & _ & Hm & Hb & Ht & Hi & Hp).
  destruct (AnimateFocus_ext GetSize h DeltaTime
              (fst (AnimatePulse h DeltaTime (call (SuperTick DeltaTime) a))) a Ht Hv)
    as [Hfocus _].
  rewrite Hfocus. unfold AnimateFocus at 1 2 3 5 6 7 8 9.
  cbn [fst PulseTimer PulseFadeTimer PulseMaterialInstance Visuals MillimeterSize bIsPlated
         MaterialIndex PrePulseMaterial call set_FocusTimer].
  repeat split; assumption.
Qed.

Lemma Tick_animations_are_unchanged_fields GetSize h DeltaTime a :
  PulseTimer (Tick GetSize h DeltaTime a) = PulseTimer (fst (AnimatePulse h DeltaTime a)) /\
  PulseFadeTimer (Tick GetSize h DeltaTime a)
  = PulseFadeTimer (fst (AnimatePulse h DeltaTime a)) /\
  FocusTimer (Tick GetSize h DeltaTime a)
  = FocusTimer (fst (AnimateFocus GetSize h DeltaTime a)).
Proof.
  rewrite Tick_result.
  destruct (Animated_fields GetSize h DeltaTime a) as (Hpt & Hpf & _ & Hft & _).
  destruct (snd (AnimatePulse h DeltaTime a) && snd (AnimateFocus GetSize h DeltaTime a));
    cbn [call PulseTimer PulseFadeTimer FocusTimer]; repeat split; assumption.
Qed.

(** X18: within a [Tick] the two animations do not interfere: the pulse
    timers and the pulse material instance end as [AnimatePulse] alone
    would leave them, the focus timer as [AnimateFocus] alone would, and
    the brush, the size, the plated flag, the variant index and the
    pre-pulse material are not touched. *)
Theorem Tick_animations_are_independent GetSize h DeltaTime a :
  PulseTimer (Tick GetSize h DeltaTime a) = PulseTimer (fst (AnimatePulse h DeltaTime a)) /\
  PulseFadeTimer (Tick GetSize h DeltaTime a)
  = PulseFadeTimer (fst (AnimatePulse h DeltaTime a)) /\
  PulseMaterialInstance (Tick GetSize h DeltaTime a)
  = PulseMaterialInstance (fst (AnimatePulse h DeltaTime a)) /\
  FocusTimer (Tick GetSize h DeltaTime a)
  = FocusTimer (fst (AnimateFocus GetSize h DeltaTime a)) /\
  Visuals (Tick GetSize h DeltaTime a) = Visuals a /\
  MillimeterSize (Tick GetSize h DeltaTime a) = MillimeterSize a /\
  bIsPlated (Tick GetSize h DeltaTime a) = bIsPlated a /\
  MaterialIndex (Tick GetSize h DeltaTime a) = MaterialIndex a /\
  PrePulseMaterial (Tick GetSize h DeltaTime a) = PrePulseMaterial a.
Proof.
  rewrite Tick_result.
  destruct (snd (AnimatePulse h DeltaTime a) && snd (AnimateFocus GetSize h DeltaTime a));
    [cbn [call PulseTimer PulseFadeTimer PulseMaterialInstance FocusTimer Visuals
            MillimeterSize bIsPlated MaterialIndex PrePulseMaterial]|];
    apply Animated_fields.
Qed.

(** X19: a button at rest stops ticking on its first [Tick].  If no pulse
    is running, the focus timer equals 0 and the step
    [DeltaTime * FocusSpeed] is zero or negative (the button is not
    focused, say, and time does not run backwards), then [Tick] disables
    the ticking and leaves the focus timer equal to 0 and the pulse timers
    as they are; this holds too right after [OnBeginFocus] enabled the
    ticking. *)
Theorem resting_button_stops_ticking GetSize h DeltaTime a :
  F32.gtb (PulseTimer a) F32.one = false ->
  F32.geb (PulseTimer a) F32.zero = false ->
  F32.eqb (FocusTimer a) F32.zero = true ->
  F32.leb (F32.mul DeltaTime (FocusSpeed h a)) F32.zero = true ->
  TickCalls (Calls (Tick GetSize h DeltaTime a))
  = TickCalls (Calls a) ++ [SetActorTickEnabled false] /\
  TickCalls (Calls (Tick GetSize h DeltaTime (OnBeginFocus a)))
  = TickCalls (Calls a) ++ [SetActorTickEnabled true; SetActorTickEnabled false] /\
  F32.eqb (FocusTimer (Tick GetSize h DeltaTime a)) F32.zero = true /\
  PulseTimer (Tick GetSize h DeltaTime a) = PulseTimer a /\
  PulseFadeTimer (Tick GetSize h DeltaTime a) = PulseFadeTimer a.
Proof.
  intros Hrise Hrun Hrest Hstep.
  assert (Hpulse : AnimatePulse h DeltaTime a = (a, true)).
  { unfold AnimatePulse. now rewrite Hrise, Hrun. }
  assert (Hfocus : snd (AnimateFocus GetSize h DeltaTime a) = true).
  { rewrite ButtonFacts.AnimateFocus_complete, ButtonFacts.FocusTimer_AnimateFocus.
    unfold FocusTarget. now apply ButtonFacts.Clamp_at_rest. }
  assert (Hpulse' : snd (AnimatePulse h DeltaTime (OnBeginFocus a)) = true).
  { unfold OnBeginFocus.
    destruct (AnimatePulse_after_call h DeltaTime (SetActorTickEnabled true) a) as [-> _].
    now rewrite Hpulse. }
  assert (Hfocus' : snd (AnimateFocus GetSize h DeltaTime (OnBeginFocus a)) = true).
  { destruct (AnimateFocus_ext GetSize h DeltaTime (OnBeginFocus a) a eq_refl eq_refl)
      as [_ ->]. exact Hfocus. }
  destruct (Tick_animations_are_unchanged_fields GetSize h DeltaTime a) as (Hpt & Hpf & Hft).
  split; [|split; [|split; [|split]]].
  - rewrite Tick_result, Hpulse, Hfocus. cbn [snd andb Calls call].
    now rewrite TickCalls_app, TickCalls_Animated.
  - rewrite Tick_result, Hpulse', Hfocus'. cbn [andb Calls call].
    rewrite TickCalls_app, TickCalls_Animated. unfold OnBeginFocus. cbn [Calls call].
    rewrite TickCalls_app. cbn. now rewrite <- app_assoc.
  - rewrite Hft, <- ButtonFacts.AnimateFocus_complete. exact Hfocus.
  - rewrite Hpt, Hpulse. reflexivity.
  - rewrite Hpf, Hpulse. reflexivity.
Qed.

Lemma resting_button_stops_ticking_example :
  TickCalls (Calls (Tick Examples.GetSizeOf (Examples.ButtonHost Default) F32.one
                      Examples.RestingButton))
  = TickCalls (Calls Examples.RestingButton) ++ [SetActorTickEnabled false].
Proof.
  apply (resting_button_stops_ticking Examples.GetSizeOf (Examples.ButtonHost Default) F32.one
           Examples.RestingButton); reflexivity.
Defined.

End ButtonCoverage.
